(** * ExpenseTracker: the bank-statement extractor of [index.js]

    A shallow embedding of [extractBankStatementData] (index.js, lines
    27-81): the per-line normalisation, the three regular expressions, the
    body of the [lines.forEach] callback as a step function on the three
    variables it closes over, and the final flush; and of the rest of the
    server (lines 84-220): the four handlers and the two functions that
    read and write the CSV file, over the functions of other modules.

    JavaScript strings are sequences of UTF-16 code units; a code unit is
    modelled as an [N] and a string as a [list N]. *)

From Stdlib Require Import String Ascii.
From stdpp Require Import numbers list strings gmap.

Local Open Scope N_scope.

(** ** Strings *)

Abbreviation jstring := (list N).

(** A literal of the source, as code units. *)
Definition js (s : string) : jstring :=
  map N_of_ascii (list_ascii_of_string s).

(** The class [\s] of a JavaScript regular expression, which is also the
    set of code units stripped by [String.prototype.trim]: WhiteSpace and
    LineTerminator of ECMA-262. *)
Definition is_ws (c : N) : bool :=
  ((9 <=? c) && (c <=? 13))          (* \t \n \v \f \r *)
  || (c =? 32)                       (* space *)
  || (c =? 160)                      (* U+00A0 *)
  || (c =? 5760)                     (* U+1680 *)
  || ((8192 <=? c) && (c <=? 8202))  (* U+2000 .. U+200A *)
  || (c =? 8232) || (c =? 8233)      (* U+2028, U+2029 *)
  || (c =? 8239)                     (* U+202F *)
  || (c =? 8287)                     (* U+205F *)
  || (c =? 12288)                    (* U+3000 *)
  || (c =? 65279).                   (* U+FEFF *)

(** The class [\d] (no unicode flag): '0' .. '9'. *)
Definition is_digit (c : N) : bool := (48 <=? c) && (c <=? 57).

Definition SPACE : N := 32.
Definition NEWLINE : N := 10.
Definition DASH : N := 45.
Definition DOT : N := 46.

Fixpoint take_while (p : N -> bool) (s : jstring) : jstring :=
  match s with
  | c :: s' => if p c then c :: take_while p s' else []
  | [] => []
  end.

Fixpoint drop_while (p : N -> bool) (s : jstring) : jstring :=
  match s with
  | c :: s' => if p c then drop_while p s' else s
  | [] => []
  end.

(** [s.trim()] *)
Definition trim (s : jstring) : jstring :=
  reverse (drop_while is_ws (reverse (drop_while is_ws s))).

(** [s.replace(/\s+/g, ' ')]: every maximal run of whitespace becomes one
    space.  [in_run] tells that the previous code unit was whitespace, so
    that the run it belongs to has already been replaced. *)
Fixpoint replace_ws_runs (in_run : bool) (s : jstring) : jstring :=
  match s with
  | [] => []
  | c :: s' =>
      if is_ws c
      then (if in_run then replace_ws_runs true s'
            else SPACE :: replace_ws_runs true s')
      else c :: replace_ws_runs false s'
  end.

(** [line.replace(/\s+/g, ' ').trim()] (line 40) *)
Definition normalize (line : jstring) : jstring :=
  trim (replace_ws_runs false line).

(** [s.split('\n')]: never empty, [''.split('\n')] is [['']]. *)
Fixpoint split_on (sep : N) (s : jstring) : list jstring :=
  match s with
  | [] => [[]]
  | c :: s' =>
      if c =? sep then [] :: split_on sep s'
      else match split_on sep s' with
           | l :: ls => (c :: l) :: ls
           | [] => [[c]]
           end
  end.

(** ** The three patterns (lines 41-43) *)

(** Matching a sequence of one-character classes at the start of a string. *)
Fixpoint match_prefix (classes : list (N -> bool)) (s : jstring) : bool :=
  match classes, s with
  | [], _ => true
  | p :: classes', c :: s' => p c && match_prefix classes' s'
  | _ :: _, [] => false
  end.

Definition is_char (x : N) (c : N) : bool := c =? x.

(** [/^\d{2}-\d{2}-\d{4}/] *)
Definition datePattern (s : jstring) : bool :=
  match_prefix
    [is_digit; is_digit; is_char DASH;
     is_digit; is_digit; is_char DASH;
     is_digit; is_digit; is_digit; is_digit] s.

(** [/^\d+(\.\d{2})?$/]: the digits of [\d+] are the longest run of digits,
    since what may follow them (a dot, or the end) is not a digit. *)
Definition amountPattern (s : jstring) : bool :=
  match take_while is_digit s, drop_while is_digit s with
  | [], _ => false
  | _ :: _, [] => true
  | _ :: _, [p; a; b] => is_char DOT p && is_digit a && is_digit b
  | _ :: _, _ => false
  end.

Definition DR : jstring := js "DR".
Definition CR : jstring := js "CR".

(** [/^(DR|CR)$/] *)
Definition typePattern (s : jstring) : bool :=
  bool_decide (s = DR) || bool_decide (s = CR).

(** ** The accumulator *)

(** The object literal [{ Date, Description, Amount, Type }]; the field
    [Type] is spelt [Type_]. *)
Record Transaction : Type := mkTransaction {
  Date : jstring;
  Description : jstring;
  Amount : jstring;
  Type_ : jstring
}.

#[global] Instance Transaction_eq_dec : EqDecision Transaction.
Proof. solve_decision. Defined.

(** [{ Date: '', Description: '', Amount: '', Type: '' }] (lines 36, 63) *)
Definition blank : Transaction := mkTransaction [] [] [] [].

(** The variables the callback of [forEach] closes over. *)
Record State : Type := mkState {
  transactions : list Transaction;
  currentTransaction : Transaction;
  inTransaction : bool
}.

#[global] Instance State_eq_dec : EqDecision State.
Proof. solve_decision. Defined.

(** Lines 35-37. *)
Definition init : State := mkState [] blank false.

(** [transactions.push(t)] *)
Definition push (ts : list Transaction) (t : Transaction) : list Transaction :=
  ts ++ [t].

(** The callback of [lines.forEach] (lines 39-70).  An object that has been
    pushed is never written again: in both branches that push, the variable
    [currentTransaction] is bound to a new object at once (lines 49, 63);
    so pushing the value of the record is pushing the object. *)
Definition step (st : State) (line : jstring) : State :=
  let normalizedLine := normalize line in
  let cur := currentTransaction st in
  if datePattern normalizedLine then
    mkState
      (if inTransaction st && bool_decide (Type_ cur = DR)
       then push (transactions st) cur else transactions st)
      (mkTransaction (take 10 normalizedLine)
                     (trim (drop 10 normalizedLine)) [] [])
      true
  else if amountPattern normalizedLine then
    mkState (transactions st)
            (mkTransaction (Date cur) (Description cur) normalizedLine (Type_ cur))
            (inTransaction st)
  else if typePattern normalizedLine then
    let cur' := mkTransaction (Date cur) (Description cur) (Amount cur) normalizedLine in
    mkState
      (if bool_decide (Type_ cur' = DR)
       then push (transactions st) cur' else transactions st)
      blank
      false
  else if inTransaction st then
    mkState (transactions st)
            (mkTransaction (Date cur) (Description cur ++ SPACE :: normalizedLine)
                           (Amount cur) (Type_ cur))
            (inTransaction st)
  else st.

(** [lines.forEach(...)] from a given state. *)
Definition run (st : State) (lines : list jstring) : State :=
  fold_left step lines st.

(** Lines 72-76: the flush at the end of the input, and the value returned. *)
Definition flush (st : State) : list Transaction :=
  if inTransaction st && bool_decide (Type_ (currentTransaction st) = DR)
  then push (transactions st) (currentTransaction st)
  else transactions st.

(** Lines 35-76 on the lines of the text. *)
Definition extractLines (lines : list jstring) : list Transaction :=
  flush (run init lines).

(** Lines 32-76 on the text of the document. *)
Definition extractText (text : jstring) : list Transaction :=
  extractLines (split_on NEWLINE (trim text)).

(** ** The line kinds of the specification

    The callback tests the patterns in this order; the first that matches
    decides the branch. *)

Inductive LineKind : Type := DateLine | AmountLine | TypeLine | ContinuationLine.

Definition classify (normalizedLine : jstring) : LineKind :=
  if datePattern normalizedLine then DateLine
  else if amountPattern normalizedLine then AmountLine
  else if typePattern normalizedLine then TypeLine
  else ContinuationLine.

(** Leading and trailing whitespace. *)
Definition starts_ws (s : jstring) : bool :=
  match s with
  | c :: _ => is_ws c
  | [] => false
  end.

Definition ends_ws (s : jstring) : bool := starts_ws (reverse s).

Definition trimmed (s : jstring) : bool := negb (starts_ws s) && negb (ends_ws s).

(** A first fragment followed by further fragments, each after one space:
    what line 51 and the repeated [+= ' ' + normalizedLine] of line 67 build. *)
Definition joined (first : jstring) (more : list jstring) : jstring :=
  first ++ concat (map (cons SPACE) more).

(** ** Invariants of the accumulator *)

(** An open draft has no type yet. *)
Definition open_untyped (st : State) : Prop :=
  inTransaction st = true -> Type_ (currentTransaction st) = [].

Definition all_DR (ts : list Transaction) : Prop :=
  Forall (fun t => Type_ t = DR) ts.

(** A date field: empty, as in the object of lines 36 and 63, or the ten
    characters that matched the date pattern. *)
Definition date_shape (d : jstring) : Prop :=
  d = [] \/ (length d = 10%nat /\ datePattern d = true).

Definition dated (st : State) : Prop :=
  date_shape (Date (currentTransaction st))
  /\ Forall (fun t => date_shape (Date t)) (transactions st).

(** An amount field: empty, or a line that matched the amount pattern. *)
Definition amount_shape (a : jstring) : Prop :=
  a = [] \/ amountPattern a = true.

Definition amounted (st : State) : Prop :=
  amount_shape (Amount (currentTransaction st))
  /\ Forall (fun t => amount_shape (Amount t)) (transactions st).

(** Whitespace as line 40 leaves it: the only whitespace is the space, and
    no two are adjacent.  [after_ws] tells that the code unit before [s] is
    whitespace, so that [s] may not start with one. *)
Fixpoint spaced (after_ws : bool) (s : jstring) : bool :=
  match s with
  | [] => true
  | c :: s' =>
      if is_ws c then (c =? SPACE) && negb after_ws && spaced true s'
      else spaced false s'
  end.

(** The lines between a DateLine and its TypeLine: the normalized lines
    that are appended to the description, and those that set the amount. *)
Definition fragments (body : list jstring) : list jstring :=
  filter (fun s => amountPattern s = false) (map normalize body).

Definition amounts (body : list jstring) : list jstring :=
  filter (fun s => amountPattern s = true) (map normalize body).

Definition body_line (line : jstring) : Prop :=
  classify (normalize line) = AmountLine
  \/ classify (normalize line) = ContinuationLine.

(** A transaction and the block of the text it comes from: a DateLine,
    lines that are amounts or continuations, and a line [DR]. *)
Definition from_block (lines : list jstring) (t : Transaction) : Prop :=
  exists pre d body tl rest,
    lines = pre ++ d :: body ++ tl :: rest
    /\ classify (normalize d) = DateLine
    /\ Forall body_line body
    /\ normalize tl = DR
    /\ t = mkTransaction (take 10 (normalize d))
             (joined (trim (drop 10 (normalize d))) (fragments body))
             (default [] (last (amounts body)))
             DR.

(** What is known of the state after [lines]: where each transaction
    pushed comes from, and where the draft, if one is open, began. *)
Definition sourced (lines : list jstring) : Prop :=
  Forall (fun t => (Date t <> [] -> from_block lines t)
                   /\ (Date t = [] -> Description t = []))
         (transactions (run init lines))
  /\ (inTransaction (run init lines) = true ->
      exists pre d body,
        lines = pre ++ d :: body
        /\ classify (normalize d) = DateLine
        /\ Forall body_line body)
  /\ (inTransaction (run init lines) = false ->
      Date (currentTransaction (run init lines)) = []
      /\ Description (currentTransaction (run init lines)) = []).

(** ** The callback on a store of objects

    The same code with the objects kept in a store and named by reference,
    as JavaScript has them: [transactions] holds references, the variable
    [currentTransaction] holds a reference, an object literal allocates, an
    assignment to a property writes into the store, and the caller reads the
    pushed objects when the function has returned. *)

Module Store.

Record Machine : Type := mkMachine {
  objects : list Transaction;
  transactions : list nat;
  currentTransaction : nat;
  inTransaction : bool
}.

Definition deref (objs : list Transaction) (r : nat) : Transaction :=
  default blank (objs !! r).

Definition set_Amount (v : jstring) (t : Transaction) : Transaction :=
  mkTransaction (Date t) (Description t) v (Type_ t).

Definition set_Type (v : jstring) (t : Transaction) : Transaction :=
  mkTransaction (Date t) (Description t) (Amount t) v.

Definition append_Description (v : jstring) (t : Transaction) : Transaction :=
  mkTransaction (Date t) (Description t ++ v) (Amount t) (Type_ t).

(** Lines 35-37: one object exists, the literal of line 36. *)
Definition init : Machine := mkMachine [blank] [] 0%nat false.

Definition step (m : Machine) (line : jstring) : Machine :=
  let normalizedLine := normalize line in
  let cur := currentTransaction m in
  if datePattern normalizedLine then
    mkMachine
      (objects m ++ [mkTransaction (take 10 normalizedLine)
                                   (trim (drop 10 normalizedLine)) [] []])
      (if inTransaction m && bool_decide (Type_ (deref (objects m) cur) = DR)
       then transactions m ++ [cur] else transactions m)
      (length (objects m))
      true
  else if amountPattern normalizedLine then
    mkMachine (alter (set_Amount normalizedLine) cur (objects m))
              (transactions m) cur (inTransaction m)
  else if typePattern normalizedLine then
    let objs := alter (set_Type normalizedLine) cur (objects m) in
    mkMachine
      (objs ++ [blank])
      (if bool_decide (Type_ (deref objs cur) = DR)
       then transactions m ++ [cur] else transactions m)
      (length objs)
      false
  else if inTransaction m then
    mkMachine (alter (append_Description (SPACE :: normalizedLine)) cur (objects m))
              (transactions m) cur (inTransaction m)
  else m.

Definition run (m : Machine) (lines : list jstring) : Machine :=
  fold_left step lines m.

Definition flush (m : Machine) : list nat :=
  if inTransaction m
     && bool_decide (Type_ (deref (objects m) (currentTransaction m)) = DR)
  then transactions m ++ [currentTransaction m]
  else transactions m.

(** The array returned, as the caller reads it. *)
Definition extractLines (lines : list jstring) : list Transaction :=
  let m := run init lines in
  map (deref (objects m)) (flush m).

End Store.

(** The store agrees with the state of records of [step]: the draft is the
    object allocated last, and every reference pushed is older. *)
Definition agrees (m : Store.Machine) (st : State) : Prop :=
  length (Store.objects m) = S (Store.currentTransaction m)
  /\ Forall (fun r => (r < Store.currentTransaction m)%nat) (Store.transactions m)
  /\ map (Store.deref (Store.objects m)) (Store.transactions m) = transactions st
  /\ Store.deref (Store.objects m) (Store.currentTransaction m) = currentTransaction st
  /\ Store.inTransaction m = inTransaction st.

(** ** The function around the parser (lines 27-34, 76-81) *)

Section Extractor.

(** What can be thrown, the path of the document, what is read from it. *)
Variables (Error Path Buffer : Type).

Inductive Outcome (A : Type) : Type :=
| Return (a : A)
| Throw (error : Error).

Arguments Return {A} a.
Arguments Throw {A} error.

(** A computation: what it wrote with [console.error], and how it ended. *)
Definition Eff (A : Type) : Type := (list Error * Outcome A)%type.

Definition ret {A : Type} (a : A) : Eff A := ([], Return a).

Definition throw {A : Type} (error : Error) : Eff A := ([], Throw error).

Definition lift {A : Type} (o : Outcome A) : Eff A := ([], o).

Definition bind {A B : Type} (c : Eff A) (k : A -> Eff B) : Eff B :=
  match c with
  | (log, Return a) => let (log', o) := k a in (log ++ log', o)
  | (log, Throw error) => (log, Throw error)
  end.

(** [try { body } catch (error) { handler }] *)
Definition try_catch {A : Type} (body : Eff A) (handler : Error -> Eff A) : Eff A :=
  match body with
  | (log, Return a) => (log, Return a)
  | (log, Throw error) => let (log', o) := handler error in (log ++ log', o)
  end.

(** [console.error('Error reading PDF:', error)] *)
Definition console_error (error : Error) : Eff unit := ([error], Return tt).

(** The collaborators: [fs.readFileSync], which returns or throws, and
    [pdf] of pdf-parse, awaited: [data.text] when its promise is
    fulfilled, the reason thrown when it is rejected. *)
Variable readFileSync : Path -> Outcome Buffer.
Variable pdf : Buffer -> Outcome jstring.

Definition extractBankStatementData (pdfPath : Path) : Eff (list Transaction) :=
  bind (lift (readFileSync pdfPath)) (fun dataBuffer =>
  try_catch
    (bind (lift (pdf dataBuffer)) (fun text =>
     ret (extractText text)))
    (fun error =>
     bind (console_error error) (fun _ =>
     throw error))).

End Extractor.

Arguments Return {Error A} a.
Arguments Throw {Error A} error.
Arguments extractBankStatementData {Error Path Buffer} readFileSync pdf pdfPath.

(** ** The server (lines 84-220)

    The handlers, and the two functions that read and write the CSV file,
    are programs over the world outside the process: the disk, the source
    of random identifiers.  A program takes the world and gives the world it
    leaves, what it wrote with [console.error], and how it ended.  The
    functions of other modules are parameters: those of [fs], [path],
    [pdf-parse], [uuid] and [express-fileupload], and the pipelines of
    streams of [fs] and [fast-csv]. *)

Section Server.

Variables (Error Path Buffer File Num Obj World : Type).

(** A value of JavaScript, as far as the handlers look into it: [Obj]
    stands for the objects and arrays, which are truthy and not numbers. *)
Inductive Value : Type :=
| VUndefined
| VNull
| VBool (b : bool)
| VNumber (n : Num)
| VString (s : jstring)
| VObject (o : Obj).

(** Numbers: [isNaN(n)], [n <= 0], and the two zeros. *)
Variable num_isNaN : Num -> bool.
Variable num_le0 : Num -> bool.
Variable num_isZero : Num -> bool.

(** [!v] is [negb (truthy v)]. *)
Definition truthy (v : Value) : bool :=
  match v with
  | VUndefined | VNull => false
  | VBool b => b
  | VNumber n => negb (num_isZero n || num_isNaN n)
  | VString s => negb (bool_decide (s = []))
  | VObject _ => true
  end.

(** [v === s] for a string [s]. *)
Definition strict_eq_string (v : Value) (s : jstring) : bool :=
  match v with
  | VString s' => bool_decide (s' = s)
  | _ => false
  end.

(** An expense is an object: a row of the CSV file, or the literal of
    lines 182-188. *)
Abbreviation Expense := (gmap string Value).

(** [o.key] *)
Definition field (key : string) (o : gmap string Value) : Value :=
  default VUndefined (o !! key).

Inductive Body : Type :=
| Send (text : jstring)
| JsonTransactions (result : list Transaction)
| JsonExpenses (expenses : list Expense)
| JsonExpense (expense : Expense)
| JsonMessage (message : jstring) (error : option Value).

(** [res.status(status).send(...)] or [.json(...)]; [res.json(...)] alone
    has status 200. *)
Record Response : Type := mkResponse {
  status : nat;
  body : Body
}.

(** How a program ends: it returns or throws (the promise of an async
    function is fulfilled or rejected), or a stream emits an error that
    nothing listens for, which stops the process: what awaits the program
    never goes on. *)
Inductive Fate (A : Type) : Type :=
| Settled (o : Outcome Error A)
| Uncaught (error : Error).

Arguments Settled {A} o.
Arguments Uncaught {A} error.

(** A program: the world it leaves, its [console.error] lines, its end. *)
Definition IO (A : Type) : Type :=
  World -> World * list Error * Fate A.

Definition io_ret {A : Type} (a : A) : IO A :=
  fun w => (w, [], Settled (Return a)).

Definition io_throw {A : Type} (error : Error) : IO A :=
  fun w => (w, [], Settled (Throw error)).

Definition io_bind {A B : Type} (c : IO A) (k : A -> IO B) : IO B :=
  fun w =>
    match c w with
    | (w', log, Settled (Return a)) =>
        match k a w' with
        | (w'', log', o) => (w'', log ++ log', o)
        end
    | (w', log, Settled (Throw error)) => (w', log, Settled (Throw error))
    | (w', log, Uncaught error) => (w', log, Uncaught error)
    end.

(** [try { body } catch (error) { handler }] *)
Definition io_try {A : Type} (body : IO A) (handler : Error -> IO A) : IO A :=
  fun w =>
    match body w with
    | (w', log, Settled (Throw error)) =>
        match handler error w' with
        | (w'', log', o) => (w'', log ++ log', o)
        end
    | end_of_body => end_of_body
    end.

Definition io_console_error (error : Error) : IO unit :=
  fun w => (w, [error], Settled (Return tt)).

(** A call of a function of another module, which returns or throws. *)
Definition io_call {A : Type} (f : World -> World * Outcome Error A) : IO A :=
  fun w => match f w with (w', o) => (w', [], Settled o) end.

(** [error.message] *)
Variable message_of : Error -> Value.

(** *** POST /api/upload (lines 84-101) *)

(** [req.files.pdf]: the file sent in the field [pdf], or the array of the
    files when several were sent in that field. *)
Inductive Uploaded : Type :=
| OneFile (pdfFile : File)
| SeveralFiles (files : list File).

(** [pdfFile.name], [path.join(__dirname, name)] for a string, what
    [path.join] throws for an argument that is not a string (the [name] of
    an array is [undefined]), [pdfFile.mv(path)], and [fs.readFileSync] and
    [pdf] as [extractBankStatementData] takes them; what is read depends on
    the disk. *)
Variable file_name : File -> jstring.
Variable path_join : jstring -> Path.
Variable path_join_TypeError : Error.
Variable mv : File -> Path -> World -> World * Outcome Error unit.
Variable readFileSync : World -> Path -> Outcome Error Buffer.
Variable pdf : Buffer -> Outcome Error jstring.

(** [req_files_pdf] is [None] when line 86 finds no file.  Line 91 is
    before the [try] of line 93. *)
Definition upload (req_files_pdf : option Uploaded) : IO Response :=
  match req_files_pdf with
  | None => io_ret (mkResponse 400 (Send (js "No PDF file uploaded.")))
  | Some (SeveralFiles _) => io_throw path_join_TypeError
  | Some (OneFile pdfFile) =>
      let uploadPath := path_join (file_name pdfFile) in
      io_try
        (io_bind (io_call (mv pdfFile uploadPath)) (fun _ =>
         io_bind (fun w =>
                    match extractBankStatementData (readFileSync w) pdf uploadPath with
                    | (log, o) => (w, log, Settled o)
                    end) (fun result =>
         io_ret (mkResponse 200 (JsonTransactions result)))))
        (fun err =>
         io_bind (io_console_error err) (fun _ =>
         io_ret (mkResponse 500 (Send (js "Error processing PDF.")))))
  end.

(** *** The CSV file (lines 12-13, 110-154) *)

Definition CSV_HEADERS : list string := ["id"; "date"; "type"; "amount"; "comment"]%string.

(** [CSV_HEADERS.join(',') + '\n'] *)
Definition header_line : jstring :=
  js (String.concat "," CSV_HEADERS) ++ [NEWLINE].

(** How a pipeline of streams ends: the listener of [end] or of [finish] is
    called, or the listener of [error] is, or a stream of the pipeline that
    has no listener of [error] emits one. *)
Inductive StreamEnd (A : Type) : Type :=
| Ended (a : A)
| Errored (error : Error)
| Unheard (error : Error).

Arguments Ended {A} a.
Arguments Errored {A} error.
Arguments Unheard {A} error.

(** [fs.existsSync] and [fs.writeFileSync] on the path of the CSV file;
    [fs.createReadStream] piped into [csv.parse] with the options of line
    121: the rows in order, an error of the parser (which has the listener
    of line 122), or an error of the read stream (which has none);
    [csv.format] with the headers piped into [fs.createWriteStream]: the
    write stream finishes, or emits an error (listeners of lines 147-148),
    or the formatter, which has no listener, emits one. *)
Variable existsSync : World -> bool.
Variable writeFileSync : jstring -> World -> World * Outcome Error unit.
Variable parse_file : World -> StreamEnd (list Expense).
Variable format_to_file :
  list string -> list Expense -> World -> World * StreamEnd unit.
Variable parseFloat : Value -> Value.

(** The listener of [data] (lines 123-129). *)
Definition on_data (row : Expense) : Expense :=
  let row := <["amount" := parseFloat (field "amount" row)]> row in
  <["comment" := if truthy (field "comment" row)
                 then field "comment" row else VString []]> row.

(** [readExpensesFromCSV] (lines 110-135); what [writeFileSync] throws in
    the executor of the promise rejects the promise. *)
Definition readExpensesFromCSV : IO (list Expense) :=
  fun w =>
    if negb (existsSync w) then
      match writeFileSync header_line w with
      | (w', Return _) => (w', [], Settled (Return []))
      | (w', Throw error) => (w', [], Settled (Throw error))
      end
    else
      match parse_file w with
      | Ended rows => (w, [], Settled (Return (map on_data rows)))
      | Errored error => (w, [], Settled (Throw error))
      | Unheard error => (w, [], Uncaught error)
      end.

(** [writeExpensesToCSV] (lines 142-154) *)
Definition writeExpensesToCSV (expenses : list Expense) : IO unit :=
  fun w =>
    match format_to_file CSV_HEADERS expenses w with
    | (w', Ended _) => (w', [], Settled (Return tt))
    | (w', Errored error) => (w', [], Settled (Throw error))
    | (w', Unheard error) => (w', [], Uncaught error)
    end.

(** *** The expenses (lines 159-220) *)

Variable uuidv4 : World -> World * jstring.

(** GET /api/expenses (lines 159-167) *)
Definition getExpenses : IO Response :=
  io_try
    (io_bind readExpensesFromCSV (fun expenses =>
     io_ret (mkResponse 200 (JsonExpenses expenses))))
    (fun error =>
     io_bind (io_console_error error) (fun _ =>
     io_ret (mkResponse 500
               (JsonMessage (js "Failed to retrieve expenses")
                            (Some (message_of error)))))).

(** The object literal of lines 182-188. *)
Definition newExpense (id : jstring) (date type amount comment : Value) : Expense :=
  <["id" := VString id]>
    (<["date" := date]>
       (<["type" := type]>
          (<["amount" := parseFloat amount]>
             (<["comment" := if truthy comment then comment else VString []]> ∅)))).

Definition is_number (v : Value) : bool :=
  match v with VNumber _ => true | _ => false end.

(** [isNaN(v)] and [v <= 0], used at line 178 on numbers only. *)
Definition value_isNaN (v : Value) : bool :=
  match v with VNumber n => num_isNaN n | _ => false end.

Definition value_le0 (v : Value) : bool :=
  match v with VNumber n => num_le0 n | _ => false end.

Definition is_undefined (v : Value) : bool :=
  match v with VUndefined => true | _ => false end.

Definition is_null (v : Value) : bool :=
  match v with VNull => true | _ => false end.

(** POST /api/expenses (lines 170-199); [req_body] is the object that
    [express.json()] made of the request. *)
Definition postExpense (req_body : gmap string Value) : IO Response :=
  io_try
    (let date := field "date" req_body in
     let type := field "type" req_body in
     let amount := field "amount" req_body in
     let comment := field "comment" req_body in
     if negb (truthy date) || negb (truthy type)
        || is_undefined amount || is_null amount
     then io_ret (mkResponse 400
                    (JsonMessage (js "Missing required fields: date, type, amount") None))
     else if negb (is_number amount) || value_isNaN amount || value_le0 amount
     then io_ret (mkResponse 400
                    (JsonMessage (js "Amount must be a positive number") None))
     else
       io_bind (io_call (fun w => match uuidv4 w with (w', id) => (w', Return id) end))
         (fun id =>
       let expense := newExpense id date type amount comment in
       io_bind readExpensesFromCSV (fun expenses =>
       io_bind (writeExpensesToCSV (expenses ++ [expense])) (fun _ =>
       io_ret (mkResponse 201 (JsonExpense expense))))))
    (fun error =>
     io_bind (io_console_error error) (fun _ =>
     io_ret (mkResponse 500
               (JsonMessage (js "Failed to add expense") (Some (message_of error)))))).

(** [expense => expense.id !== expenseIdToDelete] *)
Definition other_id (expenseIdToDelete : jstring) (expense : Expense) : bool :=
  negb (strict_eq_string (field "id" expense) expenseIdToDelete).

(** DELETE /api/expenses/:id (lines 202-220) *)
Definition deleteExpense (expenseIdToDelete : jstring) : IO Response :=
  io_try
    (io_bind readExpensesFromCSV (fun expenses0 =>
     let initialLength := length expenses0 in
     let expenses := List.filter (other_id expenseIdToDelete) expenses0 in
     if bool_decide (length expenses = initialLength)
     then io_ret (mkResponse 404 (JsonMessage (js "Expense not found") None))
     else
       io_bind (writeExpensesToCSV expenses) (fun _ =>
       io_ret (mkResponse 200 (JsonMessage (js "Expense deleted successfully") None)))))
    (fun error =>
     io_bind (io_console_error error) (fun _ =>
     io_ret (mkResponse 500
               (JsonMessage (js "Failed to delete expense") (Some (message_of error)))))).

(** What line 175 and line 178 let through. *)
Definition valid_body (req_body : gmap string Value) : Prop :=
  truthy (field "date" req_body) = true
  /\ truthy (field "type" req_body) = true
  /\ exists n, field "amount" req_body = VNumber n
               /\ num_isNaN n = false /\ num_le0 n = false.

End Server.

Arguments VUndefined {Num Obj}.
Arguments VNull {Num Obj}.
Arguments VBool {Num Obj} b.
Arguments VNumber {Num Obj} n.
Arguments VString {Num Obj} s.
Arguments VObject {Num Obj} o.
Arguments Send {Num Obj} text.
Arguments JsonTransactions {Num Obj} result.
Arguments JsonExpenses {Num Obj} expenses.
Arguments JsonExpense {Num Obj} expense.
Arguments JsonMessage {Num Obj} message error.
Arguments mkResponse {Num Obj} status body.
Arguments status {Num Obj} r.
Arguments body {Num Obj} r.
Arguments Settled {Error A} o.
Arguments Uncaught {Error A} error.
Arguments Ended {Error A} a.
Arguments Errored {Error A} error.
Arguments Unheard {Error A} error.
Arguments OneFile {File} pdfFile.
Arguments SeveralFiles {File} files.
Arguments field {Num Obj} key o.
Arguments truthy {Num Obj} num_isNaN num_isZero v.
Arguments strict_eq_string {Num Obj} v s.
Arguments other_id {Num Obj} expenseIdToDelete expense.
Arguments on_data {Num Obj} num_isNaN num_isZero parseFloat row.
Arguments newExpense {Num Obj} num_isNaN num_isZero parseFloat id date type amount comment.
Arguments valid_body {Num Obj} num_isNaN num_le0 num_isZero req_body.
Arguments upload {Error Path Buffer File Num Obj World}
  file_name path_join path_join_TypeError mv readFileSync pdf req_files_pdf.
Arguments readExpensesFromCSV {Error Num Obj World}
  num_isNaN num_isZero existsSync writeFileSync parse_file parseFloat.
Arguments writeExpensesToCSV {Error Num Obj World} format_to_file expenses.
Arguments getExpenses {Error Num Obj World}
  num_isNaN num_isZero message_of existsSync writeFileSync parse_file parseFloat.
Arguments postExpense {Error Num Obj World}
  num_isNaN num_le0 num_isZero message_of existsSync writeFileSync parse_file
  format_to_file parseFloat uuidv4 req_body.
Arguments deleteExpense {Error Num Obj World}
  num_isNaN num_isZero message_of existsSync writeFileSync parse_file
  format_to_file parseFloat expenseIdToDelete.

(** ** A store in memory

    An instance of the parameters of the handlers, on which they can be
    run: the world is the list of the rows of the file and the count of the
    identifiers drawn, numbers are integers, errors are strings. *)

Module Memory.

Abbreviation Val := (Value Z unit).

Definition World : Type := (list (gmap string Val) * N)%type.

Definition num_isNaN (n : Z) : bool := false.
Definition num_le0 (n : Z) : bool := (n <=? 0)%Z.
Definition num_isZero (n : Z) : bool := (n =? 0)%Z.

Definition message_of (error : jstring) : Val := VString error.

Definition existsSync (w : World) : bool := true.

Definition writeFileSync (content : jstring) (w : World)
  : World * Outcome jstring unit :=
  (w, Return tt).

Definition parse_file (w : World) : StreamEnd jstring (list (gmap string Val)) :=
  Ended (fst w).

Definition format_to_file (headers : list string) (l : list (gmap string Val))
    (w : World) : World * StreamEnd jstring unit :=
  ((l, snd w), Ended tt).

Definition uuidv4 (w : World) : World * jstring :=
  ((fst w, snd w + 1), js "id-" ++ [48 + snd w]).

Definition parseFloat (v : Val) : Val := v.

(** A file that does not parse, a file that cannot be read, and a disk
    that cannot be written. *)
Definition malformed (w : World) : StreamEnd jstring (list (gmap string Val)) :=
  Errored (js "Parse Error").

Definition unreadable (w : World) : StreamEnd jstring (list (gmap string Val)) :=
  Unheard (js "EACCES").

Definition unwritable (headers : list string) (l : list (gmap string Val))
    (w : World) : World * StreamEnd jstring unit :=
  (w, Errored (js "ENOSPC")).

Definition GET (parse : World -> StreamEnd jstring (list (gmap string Val))) :=
  getExpenses num_isNaN num_isZero message_of existsSync writeFileSync parse
    parseFloat.

Definition POST (parse : World -> StreamEnd jstring (list (gmap string Val)))
    (format : list string -> list (gmap string Val) -> World
              -> World * StreamEnd jstring unit) :=
  postExpense num_isNaN num_le0 num_isZero message_of existsSync writeFileSync
    parse format parseFloat uuidv4.

Definition DELETE (parse : World -> StreamEnd jstring (list (gmap string Val)))
    (format : list string -> list (gmap string Val) -> World
              -> World * StreamEnd jstring unit) :=
  deleteExpense num_isNaN num_isZero message_of existsSync writeFileSync
    parse format parseFloat.

(** Rows of the file and a body of a request. *)
Definition row (id : string) (amount : Z) : gmap string Val :=
  <["id" := VString (js id)]>
    (<["date" := VString (js "2024-01-05")]>
       (<["type" := VString (js "food")]>
          (<["amount" := VNumber amount]>
             (<["comment" := VString []]> ∅)))).

Definition lunch : gmap string Val :=
  <["date" := VString (js "2024-01-06")]>
    (<["type" := VString (js "food")]>
       (<["amount" := VNumber 12%Z]> ∅)).

End Memory.

(** * Properties *)

(** ** The examples of the specification *)

Example ex_grocery :
  extractLines [js "01-02-2023 GROCERY STORE"; js "45.50"; js "DR"]
  = [mkTransaction (js "01-02-2023") (js "GROCERY STORE") (js "45.50") DR].
Proof. vm_compute. reflexivity. Qed.

Example ex_salary :
  extractLines [js "01-02-2023 SALARY"; js "1000.00"; js "CR"] = [].
Proof. vm_compute. reflexivity. Qed.

Example ex_amounts :
  map amountPattern [js "45.50"; js "1000"; js "45.5"; js "45."; js ".50"; js "12.345"; js "1 000.00"; []]
  = [true; true; false; false; false; false; false; false].
Proof. reflexivity. Qed.

Example ex_dates :
  map datePattern [js "01-02-2023"; js "01-02-2023SHOP"; js "1-2-2023"; js "01/02/2023"; js " 01-02-2023"]
  = [true; true; false; false; false].
Proof. reflexivity. Qed.

Example ex_normalize :
  normalize ([9; 160] ++ js "SHOP" ++ [32; 13; 8195] ++ js "A" ++ [12288]) = js "SHOP A"
  /\ normalize [32; 9] = []
  /\ split_on NEWLINE (js "a" ++ [NEWLINE; NEWLINE] ++ js "b") = [js "a"; []; js "b"]
  /\ split_on NEWLINE [] = [[]].
Proof. repeat split. Qed.

Example ex_text :
  extractText (js "  01-02-2023   GROCERY" ++ [NEWLINE; 13] ++ js " STORE " ++ [NEWLINE] ++ js "45.50" ++ [NEWLINE] ++ js "DR" ++ [NEWLINE])
  = [mkTransaction (js "01-02-2023") (js "GROCERY STORE") (js "45.50") DR].
Proof. vm_compute. reflexivity. Qed.

(** ** Strings *)

Lemma drop_while_starts (p : N -> bool) (s : jstring) :
  match drop_while p s with
  | c :: _ => p c = false
  | [] => True
  end.
Proof.
  induction s as [|c s IH]; simpl; [exact I|].
  destruct (p c) eqn:E; [exact IH | exact E].
Qed.

Lemma drop_while_suffix (p : N -> bool) (s : jstring) :
  exists pre, s = pre ++ drop_while p s.
Proof.
  induction s as [|c s [pre IH]]; simpl.
  - exists []. reflexivity.
  - destruct (p c).
    + exists (c :: pre). simpl. f_equal. exact IH.
    + exists []. reflexivity.
Qed.

Lemma starts_ws_drop_while (s : jstring) : starts_ws (drop_while is_ws s) = false.
Proof.
  pose proof (drop_while_starts is_ws s) as H.
  unfold starts_ws. destruct (drop_while is_ws s); [reflexivity | exact H].
Qed.

Lemma starts_ws_prefix (s t : jstring) :
  starts_ws (s ++ t) = false -> starts_ws s = false.
Proof. destruct s; simpl; [reflexivity | tauto]. Qed.

Lemma trim_trimmed (s : jstring) : trimmed (trim s) = true.
Proof.
  unfold trimmed, ends_ws, trim.
  rewrite reverse_involutive, starts_ws_drop_while.
  destruct (drop_while_suffix is_ws (reverse (drop_while is_ws s))) as [pre Hpre].
  apply (f_equal reverse) in Hpre.
  rewrite reverse_involutive, reverse_app in Hpre.
  pose proof (starts_ws_drop_while s) as Hs.
  rewrite Hpre in Hs. apply starts_ws_prefix in Hs.
  rewrite Hs. reflexivity.
Qed.

Lemma normalize_trimmed (line : jstring) : trimmed (normalize line) = true.
Proof. apply trim_trimmed. Qed.

Lemma joined_snoc (first : jstring) (more : list jstring) (f : jstring) :
  joined first (more ++ [f]) = joined first more ++ SPACE :: f.
Proof.
  unfold joined. rewrite map_app, concat_app. simpl.
  rewrite app_nil_r, app_assoc. reflexivity.
Qed.

Lemma starts_ws_joined (first : jstring) (more : list jstring) :
  trimmed first = true -> first <> [] -> starts_ws (joined first more) = false.
Proof.
  unfold trimmed, joined. intros H Hne.
  destruct first as [|c first]; [congruence|]. simpl in *.
  destruct (is_ws c); [discriminate | reflexivity].
Qed.

Lemma ends_ws_app_cons (s : jstring) (c : N) (t : jstring) :
  ends_ws (s ++ c :: t) = ends_ws (c :: t).
Proof.
  unfold ends_ws. rewrite reverse_app.
  rewrite reverse_cons at 1. rewrite (reverse_cons t c).
  destruct (reverse t); simpl; reflexivity.
Qed.

Lemma ends_ws_joined_last (first : jstring) (more : list jstring) (f : jstring) :
  trimmed f = true -> f <> [] -> ends_ws (joined first (more ++ [f])) = false.
Proof.
  intros H Hne. rewrite joined_snoc.
  destruct f as [|c f]; [congruence|].
  change (joined first more ++ SPACE :: c :: f)
    with (joined first more ++ [SPACE] ++ c :: f).
  rewrite app_assoc, ends_ws_app_cons.
  unfold trimmed in H. destruct (ends_ws (c :: f)); [|reflexivity].
  rewrite andb_false_r in H. discriminate.
Qed.

Lemma ends_ws_joined_nil (first : jstring) :
  trimmed first = true -> ends_ws (joined first []) = false.
Proof.
  unfold joined, trimmed. simpl. rewrite app_nil_r.
  destruct (ends_ws first); [|reflexivity].
  rewrite andb_false_r. discriminate.
Qed.

Lemma DR_neq_CR : DR <> CR.
Proof. discriminate. Qed.

Lemma DR_neq_empty : DR <> [].
Proof. discriminate. Qed.

(** ** One step, by line kind *)

Lemma run_snoc (st : State) (lines : list jstring) (line : jstring) :
  run st (lines ++ [line]) = step (run st lines) line.
Proof. unfold run. rewrite fold_left_app. reflexivity. Qed.

Lemma step_date (st : State) (line : jstring) :
  datePattern (normalize line) = true ->
  step st line =
    mkState
      (if inTransaction st && bool_decide (Type_ (currentTransaction st) = DR)
       then push (transactions st) (currentTransaction st) else transactions st)
      (mkTransaction (take 10 (normalize line)) (trim (drop 10 (normalize line))) [] [])
      true.
Proof. intros H. unfold step. rewrite H. reflexivity. Qed.

Lemma step_transactions (st : State) (line : jstring) :
  transactions (step st line) = transactions st
  \/ (transactions (step st line) = push (transactions st) (currentTransaction st)
      /\ inTransaction st = true /\ Type_ (currentTransaction st) = DR
      /\ classify (normalize line) = DateLine)
  \/ (transactions (step st line)
        = push (transactions st)
            (mkTransaction (Date (currentTransaction st)) (Description (currentTransaction st))
                           (Amount (currentTransaction st)) DR)
      /\ normalize line = DR
      /\ classify (normalize line) = TypeLine).
Proof.
  unfold step, classify.
  destruct (datePattern (normalize line)) eqn:Hd.
  { simpl. destruct (inTransaction st) eqn:Hin; simpl; [|left; reflexivity].
    case_bool_decide as Ht; [|left; reflexivity].
    right. left. repeat split; assumption. }
  destruct (amountPattern (normalize line)) eqn:Ha; [left; reflexivity|].
  destruct (typePattern (normalize line)) eqn:Ht.
  { simpl. case_bool_decide as Hdr; [|left; reflexivity].
    right. right. rewrite Hdr. repeat split; reflexivity. }
  destruct (inTransaction st); left; reflexivity.
Qed.

(** ** The accumulator keeps its invariants *)

Lemma open_untyped_init : open_untyped init.
Proof. intros H. discriminate H. Qed.

Lemma step_open_untyped (st : State) (line : jstring) :
  open_untyped st -> open_untyped (step st line).
Proof.
  unfold open_untyped, step. intros Hst.
  destruct (datePattern (normalize line)); [reflexivity|].
  destruct (amountPattern (normalize line)); [exact Hst|].
  destruct (typePattern (normalize line)); [discriminate|].
  destruct (inTransaction st) eqn:Hin; [|simpl; congruence].
  simpl. intros _. apply Hst. reflexivity.
Qed.

Lemma run_open_untyped (lines : list jstring) (st : State) :
  open_untyped st -> open_untyped (run st lines).
Proof.
  revert st. induction lines as [|l lines IH]; intros st H; [exact H|].
  apply IH, step_open_untyped, H.
Qed.

Lemma flush_open_untyped (st : State) :
  open_untyped st -> flush st = transactions st.
Proof.
  unfold open_untyped, flush. intros H.
  destruct (inTransaction st); [|reflexivity].
  rewrite H by reflexivity. reflexivity.
Qed.

Lemma step_date_open_untyped (st : State) (line : jstring) :
  open_untyped st -> datePattern (normalize line) = true ->
  transactions (step st line) = transactions st.
Proof.
  intros Hst Hd. rewrite (step_date st line Hd). simpl.
  destruct (inTransaction st) eqn:Hin; [|reflexivity].
  rewrite (Hst Hin). reflexivity.
Qed.

Lemma Forall_push (P : Transaction -> Prop) (ts : list Transaction) (t : Transaction) :
  Forall P ts -> P t -> Forall P (push ts t).
Proof.
  intros H Ht. unfold push. apply Forall_app. split; [exact H|].
  constructor; [exact Ht | constructor].
Qed.

Lemma step_all_DR (st : State) (line : jstring) :
  all_DR (transactions st) -> all_DR (transactions (step st line)).
Proof.
  unfold all_DR. intros H.
  destruct (step_transactions st line) as [E | [(E & _ & Ht & _) | (E & _)]];
    rewrite E; [exact H | |]; apply Forall_push; try exact H;
    [exact Ht | reflexivity].
Qed.

Lemma run_all_DR (lines : list jstring) (st : State) :
  all_DR (transactions st) -> all_DR (transactions (run st lines)).
Proof.
  revert st. induction lines as [|l lines IH]; intros st H; [exact H|].
  apply IH, step_all_DR, H.
Qed.

Lemma flush_all_DR (st : State) :
  all_DR (transactions st) -> all_DR (flush st).
Proof.
  unfold flush, all_DR. intros H.
  destruct (inTransaction st); simpl; [|exact H].
  case_bool_decide as Ht; [|exact H].
  apply Forall_push; assumption.
Qed.

Lemma extractLines_all_DR (lines : list jstring) : all_DR (extractLines lines).
Proof. apply flush_all_DR, run_all_DR. constructor. Qed.

Lemma extractLines_run (lines : list jstring) :
  extractLines lines = transactions (run init lines).
Proof. apply flush_open_untyped, run_open_untyped, open_untyped_init. Qed.

(** ** The store of objects and the state of records agree *)

Lemma deref_app_l (objs : list Transaction) (t : Transaction) (r : nat) :
  (r < length objs)%nat -> Store.deref (objs ++ [t]) r = Store.deref objs r.
Proof. intros H. unfold Store.deref. rewrite lookup_app_l by exact H. reflexivity. Qed.

Lemma deref_app_new (objs : list Transaction) (t : Transaction) :
  Store.deref (objs ++ [t]) (length objs) = t.
Proof.
  unfold Store.deref. rewrite lookup_app_r by lia.
  rewrite Nat.sub_diag. reflexivity.
Qed.

Lemma deref_alter_eq (f : Transaction -> Transaction) (objs : list Transaction) (r : nat) :
  (r < length objs)%nat -> Store.deref (alter f r objs) r = f (Store.deref objs r).
Proof.
  intros H. unfold Store.deref. rewrite list_lookup_alter_eq.
  destruct (lookup_lt_is_Some_2 objs r H) as [t Ht]. rewrite Ht. reflexivity.
Qed.

Lemma deref_alter_ne (f : Transaction -> Transaction) (objs : list Transaction) (r r' : nat) :
  r <> r' -> Store.deref (alter f r objs) r' = Store.deref objs r'.
Proof. intros H. unfold Store.deref. rewrite list_lookup_alter_ne by exact H. reflexivity. Qed.

Lemma map_deref_ext (objs objs' : list Transaction) (rs : list nat) (n : nat) :
  Forall (fun r => (r < n)%nat) rs ->
  (forall r, (r < n)%nat -> Store.deref objs' r = Store.deref objs r) ->
  map (Store.deref objs') rs = map (Store.deref objs) rs.
Proof.
  intros Hrs Hext. induction Hrs as [|r rs Hr _ IH]; [reflexivity|].
  simpl. rewrite (Hext r Hr), IH. reflexivity.
Qed.

Lemma Forall_lt_S (rs : list nat) (n : nat) :
  Forall (fun r => (r < n)%nat) rs -> Forall (fun r => (r < S n)%nat) (rs ++ [n]).
Proof.
  intros H. apply Forall_app. split.
  - eapply Forall_impl; [exact H|]. intros r Hr. simpl in *. lia.
  - constructor; [lia | constructor].
Qed.

Lemma Forall_lt_mono (rs : list nat) (n : nat) :
  Forall (fun r => (r < n)%nat) rs -> Forall (fun r => (r < S n)%nat) rs.
Proof. intros H. eapply Forall_impl; [exact H|]. intros r Hr. simpl in *. lia. Qed.

Lemma agrees_init : agrees Store.init init.
Proof. repeat split. constructor. Qed.


Lemma step_agrees (m : Store.Machine) (st : State) (line : jstring) :
  agrees m st -> agrees (Store.step m line) (step st line).
Proof.
  intros (Hlen & Hold & Htx & Hcur & Hin).
  assert (Hkeep : forall objs' : list Transaction,
             (forall r, (r < Store.currentTransaction m)%nat ->
                        Store.deref objs' r = Store.deref (Store.objects m) r) ->
             map (Store.deref objs') (Store.transactions m) = transactions st).
  { intros objs' H. rewrite <- Htx. eapply map_deref_ext; [exact Hold | exact H]. }
  unfold agrees, Store.step, step.
  destruct (datePattern (normalize line)).
  { simpl. rewrite Hin, Hcur, deref_app_new, length_app. simpl.
    split; [lia|]. rewrite Hlen.
    destruct (inTransaction st && _).
    - split; [apply Forall_lt_S, Hold|].
      rewrite map_app, Hkeep by (intros r Hr; apply deref_app_l; lia).
      simpl. rewrite deref_app_l by lia. rewrite Hcur. repeat split.
    - split; [apply Forall_lt_mono, Hold|].
      rewrite Hkeep by (intros r Hr; apply deref_app_l; lia). repeat split. }
  destruct (amountPattern (normalize line)).
  { simpl. rewrite length_alter, deref_alter_eq by lia. rewrite Hcur.
    rewrite Hkeep by (intros r Hr; apply deref_alter_ne; lia).
    repeat split; assumption. }
  destruct (typePattern (normalize line)).
  { simpl. rewrite deref_app_new, length_app, !length_alter. simpl.
    split; [lia|]. rewrite deref_alter_eq by lia. rewrite Hcur, Hlen.
    unfold Store.set_Type at 1. simpl.
    case_bool_decide.
    - split; [apply Forall_lt_S, Hold|].
      rewrite map_app, Hkeep
        by (intros r Hr; rewrite deref_app_l by (rewrite length_alter; lia);
            apply deref_alter_ne; lia).
      simpl. rewrite deref_app_l by (rewrite length_alter; lia).
      rewrite deref_alter_eq by lia. rewrite Hcur. repeat split.
    - split; [apply Forall_lt_mono, Hold|].
      rewrite Hkeep
        by (intros r Hr; rewrite deref_app_l by (rewrite length_alter; lia);
            apply deref_alter_ne; lia).
      repeat split. }
  rewrite Hin. destruct (inTransaction st) eqn:Hopen.
  - simpl. rewrite length_alter, deref_alter_eq by lia. rewrite Hcur.
    rewrite Hkeep by (intros r Hr; apply deref_alter_ne; lia).
    repeat split; assumption.
  - repeat split; try assumption. congruence.
Qed.

Lemma run_agrees (lines : list jstring) (m : Store.Machine) (st : State) :
  agrees m st -> agrees (Store.run m lines) (run st lines).
Proof.
  revert m st. induction lines as [|l lines IH]; intros m st H; [exact H|].
  apply IH, step_agrees, H.
Qed.

Lemma flush_agrees (m : Store.Machine) (st : State) :
  agrees m st -> map (Store.deref (Store.objects m)) (Store.flush m) = flush st.
Proof.
  intros (_ & _ & Htx & Hcur & Hin). unfold Store.flush, flush.
  rewrite Hin, Hcur. destruct (inTransaction st && _); [|exact Htx].
  rewrite map_app, Htx. simpl. rewrite Hcur. reflexivity.
Qed.

(** X1.  What the caller reads from the array of references is the list of
    records of [extractLines]: no pushed object is written after its push. *)
Theorem Store_extractLines (lines : list jstring) :
  Store.extractLines lines = extractLines lines.
Proof. apply flush_agrees, run_agrees, agrees_init. Qed.

(** ** The patterns *)

Lemma classify_date (s : jstring) :
  classify s = DateLine <-> datePattern s = true.
Proof.
  unfold classify. destruct (datePattern s); [tauto|].
  destruct (amountPattern s); [split; discriminate|].
  destruct (typePattern s); split; discriminate.
Qed.

Lemma match_prefix_length (classes : list (N -> bool)) (s : jstring) :
  match_prefix classes s = true -> (length classes <= length s)%nat.
Proof.
  revert s. induction classes as [|p classes IH]; intros s H; simpl; [lia|].
  destruct s as [|c s]; [discriminate|].
  simpl in H. apply andb_prop in H as [_ H]. apply IH in H. simpl. lia.
Qed.

Lemma datePattern_length (s : jstring) :
  datePattern s = true -> length (take 10 s) = 10%nat.
Proof.
  intros H. apply match_prefix_length in H. simpl in H.
  rewrite length_take. lia.
Qed.

Lemma match_prefix_take (classes : list (N -> bool)) (s : jstring) :
  match_prefix classes s = true ->
  match_prefix classes (take (length classes) s) = true.
Proof.
  revert s. induction classes as [|p classes IH]; intros s H; [reflexivity|].
  destruct s as [|c s]; [discriminate|].
  simpl in *. apply andb_prop in H as [Hp H].
  rewrite Hp, (IH s H). reflexivity.
Qed.

Lemma date_shape_take (s : jstring) :
  datePattern s = true -> date_shape (take 10 s).
Proof.
  intros H. right. split; [apply datePattern_length, H|].
  apply (match_prefix_take _ s H).
Qed.

Lemma step_dated (st : State) (line : jstring) :
  dated st -> dated (step st line).
Proof.
  unfold dated, step. intros [Hc Ht].
  destruct (datePattern (normalize line)) eqn:Hd.
  { simpl. split; [apply date_shape_take, Hd|].
    destruct (inTransaction st && _); [apply Forall_push|]; assumption. }
  destruct (amountPattern (normalize line)); [split; assumption|].
  destruct (typePattern (normalize line)).
  { simpl. split; [left; reflexivity|].
    case_bool_decide; [apply Forall_push|]; assumption. }
  destruct (inTransaction st); split; assumption.
Qed.

Lemma run_dated (lines : list jstring) (st : State) :
  dated st -> dated (run st lines).
Proof.
  revert st. induction lines as [|l lines IH]; intros st H; [exact H|].
  apply IH, step_dated, H.
Qed.

(** X2.  The date of a transaction of the output is empty or a date of ten
    characters; it is empty when the transaction was pushed by a [DR] line
    met with no draft open. *)
Theorem extractLines_dates (lines : list jstring) :
  Forall (fun t => date_shape (Date t)) (extractLines lines).
Proof.
  rewrite extractLines_run.
  apply (run_dated lines init). split; [left; reflexivity | constructor].
Qed.

(** A line [DR] is pushed with what the variable holds then, whether or not
    a draft is open: the branch of line 58 does not test [inTransaction]. *)
Lemma step_DR (st : State) :
  step st DR =
    mkState (push (transactions st)
               (mkTransaction (Date (currentTransaction st))
                  (Description (currentTransaction st))
                  (Amount (currentTransaction st)) DR))
            blank false.
Proof. reflexivity. Qed.

Lemma ends_ws_joined (first : jstring) (more : list jstring) :
  trimmed first = true -> Forall (fun f => trimmed f = true) more ->
  last more <> Some [] -> ends_ws (joined first more) = false.
Proof.
  intros Hf Hm Hlast. destruct more as [|f more _] using rev_ind.
  - apply ends_ws_joined_nil, Hf.
  - apply Forall_app in Hm as [_ Hm]. inversion Hm as [|? ? Htr _]; subst.
    rewrite last_snoc in Hlast.
    apply ends_ws_joined_last; [exact Htr | congruence].
Qed.

(** ** Blocks of lines *)

Lemma classify_amount (s : jstring) :
  classify s = AmountLine -> datePattern s = false /\ amountPattern s = true.
Proof.
  unfold classify. destruct (datePattern s); [discriminate|].
  destruct (amountPattern s); [tauto|].
  destruct (typePattern s); discriminate.
Qed.

Lemma classify_type (s : jstring) :
  classify s = TypeLine ->
  datePattern s = false /\ amountPattern s = false /\ typePattern s = true.
Proof.
  unfold classify. destruct (datePattern s); [discriminate|].
  destruct (amountPattern s); [discriminate|].
  destruct (typePattern s); [tauto | discriminate].
Qed.

Lemma classify_continuation (s : jstring) :
  classify s = ContinuationLine ->
  datePattern s = false /\ amountPattern s = false /\ typePattern s = false.
Proof.
  unfold classify. destruct (datePattern s); [discriminate|].
  destruct (amountPattern s); [discriminate|].
  destruct (typePattern s); [discriminate | tauto].
Qed.

Lemma step_type (st : State) (line : jstring) :
  classify (normalize line) = TypeLine ->
  step st line =
    mkState
      (if bool_decide (normalize line = DR)
       then push (transactions st)
              (mkTransaction (Date (currentTransaction st))
                 (Description (currentTransaction st))
                 (Amount (currentTransaction st)) (normalize line))
       else transactions st)
      blank false.
Proof.
  intros H. apply classify_type in H as (Hd & Ha & Ht).
  unfold step. rewrite Hd, Ha, Ht. reflexivity.
Qed.

Lemma step_amount (st : State) (line : jstring) :
  classify (normalize line) = AmountLine ->
  step st line =
    mkState (transactions st)
      (mkTransaction (Date (currentTransaction st))
         (Description (currentTransaction st)) (normalize line)
         (Type_ (currentTransaction st)))
      (inTransaction st).
Proof.
  intros H. apply classify_amount in H as (Hd & Ha).
  unfold step. rewrite Hd, Ha. reflexivity.
Qed.

Lemma step_continuation_open (st : State) (line : jstring) :
  classify (normalize line) = ContinuationLine ->
  inTransaction st = true ->
  step st line =
    mkState (transactions st)
      (mkTransaction (Date (currentTransaction st))
         (Description (currentTransaction st) ++ SPACE :: normalize line)
         (Amount (currentTransaction st))
         (Type_ (currentTransaction st)))
      true.
Proof.
  intros H Hin. apply classify_continuation in H as (Hd & Ha & Ht).
  unfold step. rewrite Hd, Ha, Ht, Hin. reflexivity.
Qed.

Lemma classify_DR (s : jstring) : s = DR -> classify s = TypeLine.
Proof. intros ->. reflexivity. Qed.

Lemma default_last_cons (a x : jstring) (l : list jstring) :
  default a (last (x :: l)) = default x (last l).
Proof.
  rewrite last_cons. destruct (last l); reflexivity.
Qed.

Lemma run_body (body : list jstring) (st : State) :
  inTransaction st = true ->
  Forall body_line body ->
  run st body =
    mkState (transactions st)
      (mkTransaction (Date (currentTransaction st))
         (Description (currentTransaction st)
            ++ concat (map (cons SPACE) (fragments body)))
         (default (Amount (currentTransaction st)) (last (amounts body)))
         (Type_ (currentTransaction st)))
      true.
Proof.
  revert st. induction body as [|l body IH]; intros st Hin Hbody.
  - simpl. rewrite app_nil_r. destruct st as [ts [d de a t] b].
    simpl in *. rewrite Hin. reflexivity.
  - apply Forall_cons in Hbody as [Hl Hbody].
    change (run st (l :: body)) with (run (step st l) body).
    unfold fragments, amounts. rewrite fmap_cons.
    destruct Hl as [Hl | Hl].
    + rewrite (step_amount st l Hl).
      apply classify_amount in Hl as [_ Ha].
      rewrite IH by assumption. simpl.
      rewrite filter_cons_False by congruence.
      rewrite (filter_cons_True (fun s => amountPattern s = true)) by exact Ha.
      rewrite default_last_cons. reflexivity.
    + rewrite (step_continuation_open st l Hl Hin).
      apply classify_continuation in Hl as (_ & Ha & _).
      rewrite IH by (reflexivity || assumption). simpl.
      rewrite filter_cons_True by exact Ha.
      rewrite (filter_cons_False (fun s => amountPattern s = true)) by congruence.
      simpl. rewrite <- app_assoc. reflexivity.
Qed.

Lemma run_app (st : State) (l1 l2 : list jstring) :
  run st (l1 ++ l2) = run (run st l1) l2.
Proof. unfold run. apply fold_left_app. Qed.

Lemma step_date_reachable (pre : list jstring) (d : jstring) :
  datePattern (normalize d) = true ->
  step (run init pre) d =
    mkState (extractLines pre)
      (mkTransaction (take 10 (normalize d)) (trim (drop 10 (normalize d))) [] [])
      true.
Proof.
  intros Hd.
  pose proof (step_date_open_untyped (run init pre) d
                (run_open_untyped pre init open_untyped_init) Hd) as Ht.
  rewrite (step_date _ d Hd) in *. simpl in Ht.
  rewrite Ht, extractLines_run. reflexivity.
Qed.

Lemma run_block (pre body : list jstring) (d : jstring) :
  datePattern (normalize d) = true ->
  Forall body_line body ->
  run init (pre ++ d :: body) =
    mkState (extractLines pre)
      (mkTransaction (take 10 (normalize d))
         (joined (trim (drop 10 (normalize d))) (fragments body))
         (default [] (last (amounts body))) [])
      true.
Proof.
  intros Hd Hbody. rewrite run_app.
  change (run (run init pre) (d :: body)) with (run (step (run init pre) d) body).
  rewrite (step_date_reachable pre d Hd).
  rewrite run_body by (reflexivity || assumption). reflexivity.
Qed.

Lemma from_block_snoc (lines : list jstring) (line : jstring) (t : Transaction) :
  from_block lines t -> from_block (lines ++ [line]) t.
Proof.
  intros (pre & d & body & tl & rest & -> & H).
  exists pre, d, body, tl, (rest ++ [line]).
  split; [|exact H].
  rewrite <- !app_assoc. simpl. rewrite <- !app_assoc. reflexivity.
Qed.

Lemma sourced_transactions_snoc (lines : list jstring) (line : jstring)
    (ts : list Transaction) :
  Forall (fun t => (Date t <> [] -> from_block lines t)
                   /\ (Date t = [] -> Description t = [])) ts ->
  Forall (fun t => (Date t <> [] -> from_block (lines ++ [line]) t)
                   /\ (Date t = [] -> Description t = [])) ts.
Proof.
  intros H. eapply Forall_impl; [exact H|].
  intros t [H1 H2]. split; [|exact H2].
  intros Hd. apply from_block_snoc, H1, Hd.
Qed.

Lemma take_10_not_empty (s : jstring) :
  datePattern s = true -> take 10 s <> [].
Proof.
  intros H. apply datePattern_length in H.
  intros E. rewrite E in H. discriminate H.
Qed.

Lemma fragments_trimmed (body : list jstring) :
  Forall (fun f => trimmed f = true) (fragments body).
Proof.
  unfold fragments. apply Forall_forall. intros f Hf.
  apply list_elem_of_filter in Hf as [_ Hf].
  apply list_elem_of_fmap in Hf as (l & -> & _). apply normalize_trimmed.
Qed.

Lemma run_sourced (lines : list jstring) : sourced lines.
Proof.
  induction lines as [|l lines IH] using rev_ind.
  { split; [constructor|]. split; [discriminate|]. intros _. split; reflexivity. }
  destruct IH as (Hts & Hopen & Hidle).
  unfold sourced. rewrite run_snoc.
  destruct (classify (normalize l)) eqn:Hc.
  - (* a DateLine opens a draft at the end of the lines *)
    apply classify_date in Hc.
    rewrite (step_date_reachable lines l Hc), extractLines_run. simpl.
    split; [apply sourced_transactions_snoc, Hts|].
    split; [|discriminate].
    intros _. exists lines, l, []. repeat split.
    + apply classify_date, Hc.
    + constructor.
  - (* an AmountLine goes into the block of the draft, if one is open *)
    rewrite (step_amount _ l Hc). simpl.
    split; [apply sourced_transactions_snoc, Hts|]. split.
    + intros Hin. destruct (Hopen Hin) as (pre & d & body & -> & Hd & Hb).
      exists pre, d, (body ++ [l]). split; [|split; [exact Hd|]].
      * rewrite <- app_assoc. reflexivity.
      * apply Forall_app. split; [exact Hb|].
        constructor; [left; exact Hc | constructor].
    + exact Hidle.
  - (* a TypeLine closes the block *)
    rewrite (step_type _ l Hc). simpl.
    split; [|split; [discriminate | intros _; split; reflexivity]].
    case_bool_decide as Hdr; [|apply sourced_transactions_snoc, Hts].
    apply Forall_push; [apply sourced_transactions_snoc, Hts|]. simpl.
    destruct (inTransaction (run init lines)) eqn:Hin.
    + destruct (Hopen eq_refl) as (pre & d & body & -> & Hd & Hb).
      pose proof Hd as Hd'. apply classify_date in Hd'.
      rewrite (run_block pre body d Hd' Hb). simpl. split.
      * intros _. exists pre, d, body, l, [].
        split; [rewrite <- app_assoc; reflexivity|].
        split; [exact Hd|]. split; [exact Hb|]. split; [exact Hdr|].
        rewrite Hdr. reflexivity.
      * intros E. destruct (take_10_not_empty _ Hd' E).
    + destruct (Hidle eq_refl) as [Hdate Hdesc]. split.
      * intros Hne. destruct (Hne Hdate).
      * intros _. exact Hdesc.
  - (* a ContinuationLine goes into the block of the draft, if one is open *)
    destruct (inTransaction (run init lines)) eqn:Hin.
    + rewrite (step_continuation_open _ l Hc Hin). simpl.
      split; [apply sourced_transactions_snoc, Hts|].
      split; [|discriminate].
      intros _. destruct (Hopen eq_refl) as (pre & d & body & -> & Hd & Hb).
      exists pre, d, (body ++ [l]). split; [|split; [exact Hd|]].
      * rewrite <- app_assoc. reflexivity.
      * apply Forall_app. split; [exact Hb|].
        constructor; [right; exact Hc | constructor].
    + apply classify_continuation in Hc as (Hd & Ha & Ht).
      unfold step. rewrite Hd, Ha, Ht, Hin.
      split; [apply sourced_transactions_snoc, Hts|].
      split; [rewrite Hin; discriminate | intros _; apply Hidle; reflexivity].
Qed.

(** * The claims *)

(** C1. Claimed: a TypeLine processed while no draft is open is a no-op.
    The code at the text [DR]: the branch of line 58 tests no
    [inTransaction], so the line sets [Type] of the placeholder object of
    line 36 and pushes it; the list of transactions grows by a record with
    empty date, empty description and type [DR]. *)
Theorem C1_DR_line_while_idle_is_pushed :
  inTransaction init = false
  /\ classify (normalize DR) = TypeLine
  /\ step init DR = mkState [mkTransaction [] [] [] DR] blank false
  /\ transactions (step init DR) <> transactions init
  /\ extractText DR = [mkTransaction [] [] [] DR].
Proof. repeat split. discriminate. Qed.

(** C2. Claimed: every transaction of the output has a non-empty date of 10
    characters.  The code on a text whose second line is [DR] with no draft
    open: the first transaction of the output has the empty date. *)
Theorem C2_output_with_empty_date :
  extractText (js "Opening Balance" ++ [NEWLINE] ++ DR ++ [NEWLINE]
               ++ js "01-02-2023 SHOP" ++ [NEWLINE] ++ js "5.00" ++ [NEWLINE] ++ DR)
  = [mkTransaction [] [] [] DR;
     mkTransaction (js "01-02-2023") (js "SHOP") (js "5.00") DR]
  /\ length (Date (mkTransaction [] [] [] DR)) = 0%nat.
Proof. split; reflexivity. Qed.

(** C3. Claimed: an AmountLine processed while no draft is open changes
    nothing, and the output is the same as without the line.  The code on
    the lines [12.50], [DR]: line 57 writes the amount into the placeholder
    object whether or not a draft is open, and the [DR] line that follows
    pushes that object; without the amount line the pushed record has the
    empty amount. *)
Theorem C3_amount_line_while_idle_is_kept :
  inTransaction init = false
  /\ classify (normalize (js "12.50")) = AmountLine
  /\ step init (js "12.50") = mkState [] (mkTransaction [] [] (js "12.50") []) false
  /\ step init (js "12.50") <> init
  /\ extractLines [js "12.50"; DR] = [mkTransaction [] [] (js "12.50") DR]
  /\ extractLines [DR] = [mkTransaction [] [] [] DR]
  /\ extractLines [js "12.50"; DR] <> extractLines [DR].
Proof. repeat split; discriminate. Qed.

(** C4. For every text, every transaction of the output has type [DR]: none
    has type [CR] and none has the empty type. *)
Theorem C4_every_output_type_is_DR (text : jstring) :
  Forall (fun t => Type_ t = DR /\ Type_ t <> CR /\ Type_ t <> [])
         (extractText text).
Proof.
  eapply Forall_impl; [apply extractLines_all_DR|].
  intros t Ht. simpl in Ht. rewrite Ht.
  split; [reflexivity|]. split; [apply DR_neq_CR | apply DR_neq_empty].
Qed.

(** C5. After any sequence of lines, if a draft is open its type is the empty
    string; so the flush at the end of the input pushes nothing: what is
    returned is the list as the last line left it. *)
Theorem C5_open_draft_is_untyped_and_flush_is_dead (lines : list jstring) :
  (inTransaction (run init lines) = true ->
   Type_ (currentTransaction (run init lines)) = [])
  /\ flush (run init lines) = transactions (run init lines).
Proof.
  pose proof (run_open_untyped lines init open_untyped_init) as H.
  split; [exact H | apply flush_open_untyped, H].
Qed.

Lemma C5_witness :
  inTransaction (run init [js "01-02-2023 SHOP"; js "5.00"; js "NEXT DOOR"]) = true
  /\ Type_ (currentTransaction
              (run init [js "01-02-2023 SHOP"; js "5.00"; js "NEXT DOOR"])) = [].
Proof.
  split; [reflexivity|].
  apply (proj1 (C5_open_draft_is_untyped_and_flush_is_dead
                  [js "01-02-2023 SHOP"; js "5.00"; js "NEXT DOOR"])).
  reflexivity.
Defined.

(** C6, as claimed, fails: an empty line between a DateLine and its [DR]
    line leaves a space at the end of the description, and a continuation
    after a DateLine with no remainder leaves one at its start; the output
    with the empty line differs from the output without it. *)
Lemma C6_counterexample :
  extractLines [js "01-02-2023 SHOP A"; []; DR]
    = [mkTransaction (js "01-02-2023") (js "SHOP A ") [] DR]
  /\ ends_ws (js "SHOP A ") = true
  /\ extractLines [js "01-02-2023 SHOP A"; DR]
    = [mkTransaction (js "01-02-2023") (js "SHOP A") [] DR]
  /\ extractLines [js "01-02-2023 SHOP A"; []; DR]
     <> extractLines [js "01-02-2023 SHOP A"; DR]
  /\ extractLines [js "01-02-2023"; js "SHOP A"; DR]
    = [mkTransaction (js "01-02-2023") (js " SHOP A") [] DR]
  /\ starts_ws (js " SHOP A") = true.
Proof. repeat split; discriminate. Qed.

(** C6, amended.  For every sequence of lines, every transaction of the
    output whose date is not empty comes from a block of the lines: a
    DateLine, then lines that are amounts or continuations, then a line
    [DR]; its description is the trimmed remainder of that DateLine
    followed, for each ContinuationLine of the block in order, by one space
    and the normalized line.  A transaction of the output whose date is
    empty has the empty description.  The remainder and every continuation
    fragment have no leading and no trailing whitespace; so the description
    has no leading whitespace when the remainder is not empty, and no
    trailing whitespace when the last continuation fragment, if any, is not
    empty.  An empty line met while a draft is open is a ContinuationLine
    and appends one space to the description of the draft. *)
Theorem C6_description_is_joined_fragments :
  (forall (lines : list jstring) (t : Transaction),
     In t (extractLines lines) ->
     (Date t <> [] -> from_block lines t)
     /\ (Date t = [] -> Description t = []))
  /\ (forall (d : jstring) (body : list jstring),
        trimmed (trim (drop 10 (normalize d))) = true
        /\ Forall (fun f => trimmed f = true) (fragments body)
        /\ (trim (drop 10 (normalize d)) <> [] ->
            starts_ws (joined (trim (drop 10 (normalize d))) (fragments body)) = false)
        /\ (last (fragments body) <> Some [] ->
            ends_ws (joined (trim (drop 10 (normalize d))) (fragments body)) = false))
  /\ (forall st : State,
        inTransaction st = true ->
        classify (normalize []) = ContinuationLine
        /\ step st [] =
             mkState (transactions st)
               (mkTransaction (Date (currentTransaction st))
                  (Description (currentTransaction st) ++ [SPACE])
                  (Amount (currentTransaction st))
                  (Type_ (currentTransaction st)))
               true).
Proof.
  split; [|split].
  - intros lines t Ht. rewrite extractLines_run in Ht.
    destruct (run_sourced lines) as [Hts _].
    rewrite Forall_forall in Hts. apply Hts, list_elem_of_In, Ht.
  - intros d body.
    split; [apply trim_trimmed|]. split; [apply fragments_trimmed|]. split.
    + apply starts_ws_joined, trim_trimmed.
    + apply ends_ws_joined; [apply trim_trimmed | apply fragments_trimmed].
  - intros st H. split; [reflexivity|].
    unfold step. change (normalize []) with (@nil N). simpl.
    rewrite H. reflexivity.
Qed.

Lemma C6_witness :
  from_block [js "01-02-2023  SHOP A "; js "BRANCH   7"; js "3.50"; DR]
    (mkTransaction (js "01-02-2023") (js "SHOP A BRANCH 7") (js "3.50") DR)
  /\ starts_ws (joined (trim (drop 10 (normalize (js "01-02-2023  SHOP A "))))
                  (fragments [js "BRANCH   7"; js "3.50"])) = false
  /\ ends_ws (joined (trim (drop 10 (normalize (js "01-02-2023  SHOP A "))))
                (fragments [js "BRANCH   7"; js "3.50"])) = false
  /\ step (run init [js "01-02-2023 SHOP A"]) []
     = mkState [] (mkTransaction (js "01-02-2023") (js "SHOP A ") [] []) true.
Proof.
  split; [|split; [|split]].
  - apply (proj1 (proj1 C6_description_is_joined_fragments
                    [js "01-02-2023  SHOP A "; js "BRANCH   7"; js "3.50"; DR]
                    (mkTransaction (js "01-02-2023") (js "SHOP A BRANCH 7") (js "3.50") DR)
                    (or_introl eq_refl))).
    discriminate.
  - apply (proj1 (proj2 (proj2 (proj1 (proj2 C6_description_is_joined_fragments)
                                  (js "01-02-2023  SHOP A ")
                                  [js "BRANCH   7"; js "3.50"])))).
    discriminate.
  - apply (proj2 (proj2 (proj2 (proj1 (proj2 C6_description_is_joined_fragments)
                                  (js "01-02-2023  SHOP A ")
                                  [js "BRANCH   7"; js "3.50"])))).
    discriminate.
  - apply (proj2 (proj2 C6_description_is_joined_fragments)
                 (run init [js "01-02-2023 SHOP A"])).
    reflexivity.
Defined.

(** C7. The lines [01-02-2023 SHOP A], [DR], [02-02-2023 SHOP B], [20.00],
    [DR] give two transactions, in this order: [SHOP A] of 01-02-2023 with
    the empty amount, and [SHOP B] of 02-02-2023 with amount [20.00], both
    of type [DR]. *)
Theorem C7_two_shops_example :
  extractLines
    [js "01-02-2023 SHOP A"; js "DR"; js "02-02-2023 SHOP B"; js "20.00"; js "DR"]
  = [mkTransaction (js "01-02-2023") (js "SHOP A") (js "") (js "DR");
     mkTransaction (js "02-02-2023") (js "SHOP B") (js "20.00") (js "DR")].
Proof. vm_compute. reflexivity. Qed.

(** C8. When the text-extraction collaborator fails, the function fails with
    the very error it was given: the handler of line 77 writes it to the
    console once and throws it again, and no list of transactions is
    returned. *)
Theorem C8_extraction_error_is_rethrown
    (Error Path Buffer : Type)
    (readFileSync : Path -> Outcome Error Buffer)
    (pdf : Buffer -> Outcome Error jstring)
    (pdfPath : Path) (dataBuffer : Buffer) (error : Error) :
  readFileSync pdfPath = Return dataBuffer ->
  pdf dataBuffer = Throw error ->
  extractBankStatementData readFileSync pdf pdfPath = ([error], Throw error).
Proof.
  intros Hread Hpdf. unfold extractBankStatementData.
  rewrite Hread. simpl. rewrite Hpdf. reflexivity.
Qed.

Lemma C8_witness :
  extractBankStatementData
    (fun _ : unit => Return (A := list N) [37; 80; 68; 70])
    (fun _ : list N => Throw (Error := nat) (A := jstring) 7%nat) tt
  = ([7%nat], Throw 7%nat).
Proof.
  apply (C8_extraction_error_is_rethrown nat unit (list N)
           (fun _ => Return [37; 80; 68; 70]) (fun _ => Throw 7%nat)
           tt [37; 80; 68; 70] 7%nat); reflexivity.
Defined.

(** C9. A DateLine, in whatever state it is met, makes the draft anew: its
    date is the first 10 characters of the normalized line, its description
    the trimmed rest, its amount and type are empty, and a draft is open.
    Nothing of the variable's former value, so no amount or type met before,
    is in it. *)
Theorem C9_date_line_starts_a_fresh_draft (st : State) (line : jstring) :
  classify (normalize line) = DateLine ->
  currentTransaction (step st line)
    = mkTransaction (take 10 (normalize line)) (trim (drop 10 (normalize line))) [] []
  /\ length (Date (currentTransaction (step st line))) = 10%nat
  /\ inTransaction (step st line) = true.
Proof.
  intros H. apply classify_date in H.
  rewrite (step_date st line H). simpl.
  repeat split. apply datePattern_length, H.
Qed.

Lemma C9_witness :
  currentTransaction (step (run init [js "99.00"]) (js "01-02-2023  SHOP A "))
  = mkTransaction (js "01-02-2023") (js "SHOP A") [] [].
Proof.
  apply (C9_date_line_starts_a_fresh_draft
           (run init [js "99.00"]) (js "01-02-2023  SHOP A ")).
  reflexivity.
Defined.

(** C10. After any sequence of lines: an open draft does not have type
    [DR], a DateLine leaves the list of transactions as it was, a line that
    changes the list is the TypeLine [DR] and appends one transaction, and
    the flush at the end appends nothing. *)
Theorem C10_only_a_type_line_pushes (lines : list jstring) (line : jstring) :
  (inTransaction (run init lines) = true ->
   Type_ (currentTransaction (run init lines)) <> DR)
  /\ (classify (normalize line) = DateLine ->
      transactions (step (run init lines) line) = transactions (run init lines))
  /\ (transactions (step (run init lines) line) = transactions (run init lines)
      \/ (classify (normalize line) = TypeLine
          /\ exists t, transactions (step (run init lines) line)
                       = push (transactions (run init lines)) t))
  /\ extractLines lines = transactions (run init lines).
Proof.
  pose proof (run_open_untyped lines init open_untyped_init) as Hopen.
  split; [|split; [|split]].
  - intros H. rewrite (Hopen H). discriminate.
  - intros H. apply classify_date in H.
    apply step_date_open_untyped; assumption.
  - destruct (step_transactions (run init lines) line)
      as [E | [(_ & Hin & Ht & _) | (E & _ & Hc)]].
    + left. exact E.
    + rewrite (Hopen Hin) in Ht. discriminate Ht.
    + right. split; [exact Hc|]. eexists. exact E.
  - apply extractLines_run.
Qed.

Lemma C10_witness :
  (inTransaction (run init [js "01-02-2023 SHOP A"; js "20.00"]) = true
   /\ Type_ (currentTransaction (run init [js "01-02-2023 SHOP A"; js "20.00"])) <> DR)
  /\ (classify (normalize (js "02-02-2023 SHOP B")) = DateLine
      /\ transactions (step (run init [js "01-02-2023 SHOP A"; js "20.00"])
                            (js "02-02-2023 SHOP B"))
         = transactions (run init [js "01-02-2023 SHOP A"; js "20.00"])).
Proof.
  pose proof (C10_only_a_type_line_pushes
                [js "01-02-2023 SHOP A"; js "20.00"] (js "02-02-2023 SHOP B"))
    as (H1 & H2 & _).
  split; (split; [reflexivity|]).
  - apply H1. reflexivity.
  - apply H2. reflexivity.
Defined.

(** * Further properties of the parser *)

(** X5.  A DateLine, then lines that are amounts or continuations, then a line
    [DR]: whatever came before, exactly one transaction is added to the
    output.  Its date is the first ten characters of the DateLine, its
    description the trimmed rest followed by each continuation after a
    space, its amount the last amount line, or empty when there is none. *)
Theorem block_closed_by_DR_adds_one_transaction
    (pre body : list jstring) (d t : jstring) :
  classify (normalize d) = DateLine ->
  Forall body_line body ->
  normalize t = DR ->
  extractLines (pre ++ d :: body ++ [t])
  = extractLines pre
    ++ [mkTransaction (take 10 (normalize d))
          (joined (trim (drop 10 (normalize d))) (fragments body))
          (default [] (last (amounts body)))
          DR].
Proof.
  intros Hd Hbody Ht. apply classify_date in Hd.
  rewrite extractLines_run.
  replace (pre ++ d :: body ++ [t]) with ((pre ++ d :: body) ++ [t])
    by (rewrite <- app_assoc; reflexivity).
  rewrite run_snoc, (run_block pre body d Hd Hbody).
  rewrite (step_type _ t (classify_DR _ Ht)). simpl.
  rewrite Ht. reflexivity.
Qed.

Lemma block_closed_by_DR_witness :
  extractLines ([js "Statement of account"; js "7"; js "CR"]
                ++ js "03-04-2024  CARD PAYMENT"
                   :: [js "10.00"; js "REF 123"; js "  12.75 "; []] ++ [js " DR "])
  = extractLines [js "Statement of account"; js "7"; js "CR"]
    ++ [mkTransaction (js "03-04-2024") (js "CARD PAYMENT REF 123 ") (js "12.75") DR].
Proof.
  apply (block_closed_by_DR_adds_one_transaction
           [js "Statement of account"; js "7"; js "CR"]
           [js "10.00"; js "REF 123"; js "  12.75 "; []]
           (js "03-04-2024  CARD PAYMENT") (js " DR ")).
  - reflexivity.
  - repeat (constructor; [first [left; reflexivity | right; reflexivity]|]).
    constructor.
  - reflexivity.
Defined.

(** X6.  The same block closed by a line [CR] adds nothing to the output, and
    nothing of the block is left: the lines after it are read as from the
    start. *)
Theorem block_closed_by_CR_is_discarded
    (pre body : list jstring) (d t : jstring) :
  classify (normalize d) = DateLine ->
  Forall body_line body ->
  normalize t = CR ->
  run init (pre ++ d :: body ++ [t]) = mkState (extractLines pre) blank false
  /\ extractLines (pre ++ d :: body ++ [t]) = extractLines pre.
Proof.
  intros Hd Hbody Ht. apply classify_date in Hd.
  assert (Hrun : run init (pre ++ d :: body ++ [t])
                 = mkState (extractLines pre) blank false).
  { replace (pre ++ d :: body ++ [t]) with ((pre ++ d :: body) ++ [t])
      by (rewrite <- app_assoc; reflexivity).
    rewrite run_snoc, (run_block pre body d Hd Hbody).
    assert (Hc : classify (normalize t) = TypeLine) by (rewrite Ht; reflexivity).
    rewrite (step_type _ t Hc). simpl. rewrite Ht. reflexivity. }
  split; [exact Hrun|].
  rewrite extractLines_run, Hrun. reflexivity.
Qed.

Lemma block_closed_by_CR_witness :
  extractLines ([js "01-02-2023 SHOP"; DR]
                ++ js "05-02-2023 SALARY" :: [js "ACME LTD"; js "1000.00"] ++ [CR])
  = extractLines [js "01-02-2023 SHOP"; DR].
Proof.
  apply (block_closed_by_CR_is_discarded
           [js "01-02-2023 SHOP"; DR] [js "ACME LTD"; js "1000.00"]
           (js "05-02-2023 SALARY") CR).
  - reflexivity.
  - repeat (constructor; [first [left; reflexivity | right; reflexivity]|]).
    constructor.
  - reflexivity.
Defined.

Lemma step_length (st : State) (line : jstring) :
  open_untyped st ->
  length (transactions (step st line))
  = (length (transactions st)
     + if bool_decide (normalize line = DR) then 1 else 0)%nat.
Proof.
  intros Hst. case_bool_decide as Hnl.
  - rewrite (step_type st line (classify_DR _ Hnl)). simpl.
    rewrite bool_decide_true by exact Hnl.
    unfold push. rewrite length_app. reflexivity.
  - destruct (step_transactions st line)
      as [E | [(_ & Hin & Ht & _) | (_ & Hdr & _)]].
    + rewrite E. lia.
    + rewrite (Hst Hin) in Ht. discriminate Ht.
    + contradiction.
Qed.

Lemma run_length (lines : list jstring) (st : State) :
  open_untyped st ->
  length (transactions (run st lines))
  = (length (transactions st)
     + length (filter (fun l => normalize l = DR) lines))%nat.
Proof.
  revert st. induction lines as [|l lines IH]; intros st Hst; [simpl; lia|].
  change (run st (l :: lines)) with (run (step st l) lines).
  rewrite IH by (apply step_open_untyped, Hst).
  rewrite (step_length st l Hst), filter_cons.
  case_bool_decide; case_decide; try contradiction; simpl; lia.
Qed.

(** X4.  The output has one transaction for each line that normalizes to [DR],
    and no other: as many transactions as such lines, whatever the other
    lines are.  A text with no such line gives the empty list. *)
Theorem one_transaction_for_each_DR_line (lines : list jstring) :
  length (extractLines lines)
  = length (filter (fun l => normalize l = DR) lines).
Proof.
  rewrite extractLines_run, (run_length lines init open_untyped_init).
  reflexivity.
Qed.

Lemma step_prefix (st : State) (line : jstring) :
  transactions st `prefix_of` transactions (step st line).
Proof.
  destruct (step_transactions st line) as [E | [(E & _) | (E & _)]];
    rewrite E; [reflexivity | |]; apply prefix_app_r; reflexivity.
Qed.

Lemma run_prefix (lines : list jstring) (st : State) :
  transactions st `prefix_of` transactions (run st lines).
Proof.
  revert st. induction lines as [|l lines IH]; intros st; [reflexivity|].
  etrans; [apply (step_prefix st l) | apply IH].
Qed.

(** X9.  Reading further lines never removes, changes or reorders what the
    lines before them have put in the output: the output of a prefix of the
    lines is a prefix of the output. *)
Theorem output_of_prefix_is_prefix_of_output (pre more : list jstring) :
  extractLines pre `prefix_of` extractLines (pre ++ more).
Proof.
  rewrite !extractLines_run, run_app. apply run_prefix.
Qed.

Lemma step_frame (ts xs : list Transaction) (c : Transaction) (b : bool)
    (line : jstring) :
  step (mkState (ts ++ xs) c b) line =
    mkState (ts ++ transactions (step (mkState xs c b) line))
      (currentTransaction (step (mkState xs c b) line))
      (inTransaction (step (mkState xs c b) line)).
Proof.
  unfold step, push. simpl.
  destruct (datePattern (normalize line)).
  { simpl. destruct (b && _); [rewrite <- app_assoc|]; reflexivity. }
  destruct (amountPattern (normalize line)); [reflexivity|].
  destruct (typePattern (normalize line)).
  { simpl. case_bool_decide; [rewrite <- app_assoc|]; reflexivity. }
  destruct b; reflexivity.
Qed.

Lemma run_frame (lines : list jstring) (ts xs : list Transaction)
    (c : Transaction) (b : bool) :
  run (mkState (ts ++ xs) c b) lines =
    mkState (ts ++ transactions (run (mkState xs c b) lines))
      (currentTransaction (run (mkState xs c b) lines))
      (inTransaction (run (mkState xs c b) lines)).
Proof.
  revert xs c b. induction lines as [|l lines IH]; intros xs c b; [reflexivity|].
  change (run ?s (l :: lines)) with (run (step s l) lines).
  rewrite step_frame, IH.
  destruct (step (mkState xs c b) l) as [xs' c' b']. reflexivity.
Qed.

(** X10.  A TypeLine ends what came before it: the output of a text is the output
    of its lines up to a TypeLine followed by the output of the lines after
    it, read on their own. *)
Theorem output_splits_after_a_type_line (pre more : list jstring) (t : jstring) :
  classify (normalize t) = TypeLine ->
  extractLines (pre ++ t :: more)
  = extractLines (pre ++ [t]) ++ extractLines more.
Proof.
  intros Ht. rewrite !extractLines_run.
  replace (pre ++ t :: more) with ((pre ++ [t]) ++ more)
    by (rewrite <- app_assoc; reflexivity).
  rewrite run_app, run_snoc, (step_type _ t Ht).
  set (ts := if bool_decide (normalize t = DR) then _ else _).
  rewrite <- (app_nil_r ts) at 1.
  rewrite run_frame. reflexivity.
Qed.

Lemma output_splits_witness :
  extractLines ([js "01-02-2023 SHOP A"] ++ DR :: [js "9.99"; js "02-02-2023 SHOP B"; DR])
  = extractLines ([js "01-02-2023 SHOP A"] ++ [DR])
    ++ extractLines [js "9.99"; js "02-02-2023 SHOP B"; DR].
Proof.
  apply (output_splits_after_a_type_line
           [js "01-02-2023 SHOP A"] [js "9.99"; js "02-02-2023 SHOP B"; DR] DR).
  reflexivity.
Defined.

Lemma step_amounted (st : State) (line : jstring) :
  amounted st -> amounted (step st line).
Proof.
  unfold amounted, step. intros [Hc Ht].
  destruct (datePattern (normalize line)).
  { simpl. split; [left; reflexivity|].
    destruct (inTransaction st && _); [apply Forall_push|]; assumption. }
  destruct (amountPattern (normalize line)) eqn:Ha.
  { simpl. split; [right; exact Ha | exact Ht]. }
  destruct (typePattern (normalize line)).
  { simpl. split; [left; reflexivity|].
    case_bool_decide; [apply Forall_push|]; assumption. }
  destruct (inTransaction st); split; assumption.
Qed.

Lemma run_amounted (lines : list jstring) (st : State) :
  amounted st -> amounted (run st lines).
Proof.
  revert st. induction lines as [|l lines IH]; intros st H; [exact H|].
  apply IH, step_amounted, H.
Qed.

(** X3.  The amount of a transaction of the output is empty or a string that
    matches the amount pattern: digits, or digits, a dot and two digits. *)
Theorem output_amounts_are_empty_or_decimal (lines : list jstring) :
  Forall (fun t => amount_shape (Amount t)) (extractLines lines).
Proof.
  rewrite extractLines_run.
  apply (run_amounted lines init). split; [left; reflexivity | constructor].
Qed.

(** ** Normalisation *)

Lemma spaced_weaken (b : bool) (s : jstring) :
  spaced b s = true -> spaced false s = true.
Proof.
  destruct s as [|c s]; [reflexivity|]. simpl.
  destruct (is_ws c); [|tauto].
  destruct b; [|tauto]. rewrite andb_false_r. discriminate.
Qed.

Lemma spaced_replace (b : bool) (s : jstring) :
  spaced b (replace_ws_runs b s) = true.
Proof.
  revert b. induction s as [|c s IH]; intros b; [reflexivity|].
  simpl. destruct (is_ws c) eqn:Hc.
  - destruct b; [apply IH|].
    simpl. rewrite (IH true). reflexivity.
  - simpl. rewrite Hc. apply IH.
Qed.

Lemma replace_spaced (b : bool) (s : jstring) :
  spaced b s = true -> replace_ws_runs b s = s.
Proof.
  revert b. induction s as [|c s IH]; intros b H; [reflexivity|].
  simpl in *. destruct (is_ws c).
  - apply andb_prop in H as [H Hs]. apply andb_prop in H as [Hc Hb].
    apply N.eqb_eq in Hc. destruct b; [discriminate|].
    rewrite (IH true Hs), Hc. reflexivity.
  - rewrite (IH false H). reflexivity.
Qed.

Lemma spaced_app_l (b : bool) (s t : jstring) :
  spaced b (s ++ t) = true -> spaced b s = true.
Proof.
  revert b. induction s as [|c s IH]; intros b H; [reflexivity|].
  simpl in *. destruct (is_ws c).
  - apply andb_prop in H as [H Hs]. rewrite H, (IH true Hs). reflexivity.
  - apply (IH false H).
Qed.

Lemma spaced_app_r (b : bool) (s t : jstring) :
  spaced b (s ++ t) = true -> spaced false t = true.
Proof.
  revert b. induction s as [|c s IH]; intros b H; [apply (spaced_weaken b), H|].
  simpl in H. destruct (is_ws c).
  - apply andb_prop in H as [_ Hs]. apply (IH true Hs).
  - apply (IH false H).
Qed.

Lemma trim_infix (s : jstring) : exists pre post, s = pre ++ trim s ++ post.
Proof.
  destruct (drop_while_suffix is_ws s) as [pre Hpre].
  destruct (drop_while_suffix is_ws (reverse (drop_while is_ws s))) as [post Hpost].
  exists pre, (reverse post).
  apply (f_equal reverse) in Hpost.
  rewrite reverse_involutive, reverse_app in Hpost.
  unfold trim. rewrite <- Hpost. exact Hpre.
Qed.

Lemma spaced_trim (s : jstring) :
  spaced false s = true -> spaced false (trim s) = true.
Proof.
  intros H. destruct (trim_infix s) as (pre & post & E).
  rewrite E in H. apply spaced_app_r in H. apply spaced_app_l in H. exact H.
Qed.

Lemma drop_while_id (s : jstring) :
  starts_ws s = false -> drop_while is_ws s = s.
Proof. destruct s as [|c s]; simpl; [reflexivity|]. intros ->. reflexivity. Qed.

Lemma trim_id (s : jstring) : trimmed s = true -> trim s = s.
Proof.
  unfold trimmed, ends_ws, trim. intros H.
  apply andb_prop in H as [H1 H2].
  apply negb_true_iff in H1, H2.
  rewrite (drop_while_id s H1), (drop_while_id _ H2).
  apply reverse_involutive.
Qed.

Lemma spaced_normalize (line : jstring) : spaced false (normalize line) = true.
Proof. apply spaced_trim, spaced_replace. Qed.

(** X11.  A normalized line has no whitespace but single spaces, none of them at
    an end, and normalizing it again leaves it as it is; so the callback
    does the same on a line and on its normalized form, and the output for
    lines already normalized is the output for the lines. *)
Theorem normalize_is_idempotent :
  (forall line : jstring,
     spaced false (normalize line) = true
     /\ trimmed (normalize line) = true
     /\ normalize (normalize line) = normalize line)
  /\ (forall (st : State) (line : jstring),
        step st (normalize line) = step st line)
  /\ (forall lines : list jstring,
        extractLines (map normalize lines) = extractLines lines).
Proof.
  assert (Hidem : forall line, normalize (normalize line) = normalize line).
  { intros line. unfold normalize at 1.
    rewrite (replace_spaced false _ (spaced_normalize line)).
    apply trim_id, normalize_trimmed. }
  assert (Hstep : forall st line, step st (normalize line) = step st line).
  { intros st line. unfold step. rewrite Hidem. reflexivity. }
  split; [|split].
  - intros line. split; [apply spaced_normalize|].
    split; [apply normalize_trimmed | apply Hidem].
  - exact Hstep.
  - intros lines. unfold extractLines. f_equal.
    generalize init. induction lines as [|l lines IH]; intros st; [reflexivity|].
    simpl. change (fold_left step ?ls ?s) with (run s ls).
    rewrite Hstep. apply IH.
Qed.

(** ** Texts with nothing in them *)

Lemma drop_while_all (s : jstring) :
  Forall (fun c => is_ws c = true) s -> drop_while is_ws s = [].
Proof.
  induction 1 as [|c s Hc _ IH]; [reflexivity|].
  simpl. rewrite Hc. exact IH.
Qed.

(** X12.  A text that is empty, or made of whitespace only, gives the empty
    list: it is trimmed to the empty string, whose only line is empty. *)
Theorem blank_text_gives_no_transaction (text : jstring) :
  Forall (fun c => is_ws c = true) text ->
  extractText text = [].
Proof.
  intros H. unfold extractText, trim.
  rewrite (drop_while_all text H). reflexivity.
Qed.

Lemma blank_text_witness :
  extractText [SPACE; 9; NEWLINE; 13; NEWLINE; 160] = [].
Proof.
  apply (blank_text_gives_no_transaction [SPACE; 9; NEWLINE; 13; NEWLINE; 160]).
  repeat constructor.
Defined.

(** ** Drafts that are interrupted, lines between transactions *)

Lemma extractLines_app (l1 l2 : list jstring) :
  extractLines (l1 ++ l2) = flush (run (run init l1) l2).
Proof. unfold extractLines. rewrite run_app. reflexivity. Qed.

(** X7.  A draft that a new DateLine interrupts leaves no trace: the output is
    the same as if the first DateLine and the lines after it, up to the new
    DateLine, were not in the text. *)
Theorem interrupted_draft_is_discarded
    (pre body rest : list jstring) (d d' : jstring) :
  classify (normalize d) = DateLine ->
  Forall body_line body ->
  classify (normalize d') = DateLine ->
  extractLines (pre ++ d :: body ++ d' :: rest)
  = extractLines (pre ++ d' :: rest).
Proof.
  intros Hd Hbody Hd'. apply classify_date in Hd, Hd'.
  replace (pre ++ d :: body ++ d' :: rest)
    with (((pre ++ d :: body) ++ [d']) ++ rest)
    by (rewrite <- !app_assoc; reflexivity).
  replace (pre ++ d' :: rest) with ((pre ++ [d']) ++ rest)
    by (rewrite <- app_assoc; reflexivity).
  rewrite !extractLines_app. f_equal. f_equal.
  rewrite !run_snoc, (run_block pre body d Hd Hbody).
  rewrite (step_date_reachable pre d' Hd'), (step_date _ d' Hd').
  reflexivity.
Qed.

Lemma interrupted_draft_witness :
  extractLines ([js "01-02-2023 SHOP A"; DR]
                ++ js "02-02-2023 LOST" :: [js "55.00"; js "NO TYPE LINE"]
                ++ js "03-02-2023 SHOP C" :: [js "7.00"; DR])
  = extractLines ([js "01-02-2023 SHOP A"; DR]
                  ++ js "03-02-2023 SHOP C" :: [js "7.00"; DR]).
Proof.
  apply (interrupted_draft_is_discarded
           [js "01-02-2023 SHOP A"; DR] [js "55.00"; js "NO TYPE LINE"]
           [js "7.00"; DR] (js "02-02-2023 LOST") (js "03-02-2023 SHOP C")).
  - reflexivity.
  - repeat (constructor; [first [left; reflexivity | right; reflexivity]|]).
    constructor.
  - reflexivity.
Defined.

(** X8.  A line that is no date, no amount and no type, met while no draft is
    open (at the start of the text, or after a TypeLine), changes nothing:
    the output is the same without it. *)
Theorem continuation_while_idle_is_ignored
    (pre rest : list jstring) (c : jstring) :
  inTransaction (run init pre) = false ->
  classify (normalize c) = ContinuationLine ->
  step (run init pre) c = run init pre
  /\ extractLines (pre ++ c :: rest) = extractLines (pre ++ rest).
Proof.
  intros Hidle Hc. apply classify_continuation in Hc as (Hd & Ha & Ht).
  assert (Hstep : step (run init pre) c = run init pre).
  { unfold step. rewrite Hd, Ha, Ht, Hidle. reflexivity. }
  split; [exact Hstep|].
  rewrite !extractLines_app.
  change (run (run init pre) (c :: rest))
    with (run (step (run init pre) c) rest).
  rewrite Hstep. reflexivity.
Qed.

Lemma continuation_while_idle_witness :
  extractLines ([js "01-02-2023 SHOP A"; DR]
                ++ js "Page 1 of 2" :: [js "02-02-2023 SHOP B"; DR])
  = extractLines ([js "01-02-2023 SHOP A"; DR] ++ [js "02-02-2023 SHOP B"; DR]).
Proof.
  apply (continuation_while_idle_is_ignored
           [js "01-02-2023 SHOP A"; DR] [js "02-02-2023 SHOP B"; DR]
           (js "Page 1 of 2")); reflexivity.
Defined.

(** * The handlers of the server *)

Section UploadProperties.

Context {Error Path Buffer File Num Obj World : Type}.
Variable file_name : File -> jstring.
Variable path_join : jstring -> Path.
Variable path_join_TypeError : Error.
Variable mv : File -> Path -> World -> World * Outcome Error unit.
Variable readFileSync : World -> Path -> Outcome Error Buffer.
Variable pdf : Buffer -> Outcome Error jstring.

Local Abbreviation handler :=
  (upload (Num := Num) (Obj := Obj) file_name path_join path_join_TypeError
     mv readFileSync pdf).
Local Abbreviation processing_failed :=
  (mkResponse (Num := Num) (Obj := Obj) 500 (Send (js "Error processing PDF."))).

(** X13.  The upload handler, case by case.  With no file in the field
    [pdf] it answers 400 and does nothing else.  With several files in that
    field, [path.join] of line 91 throws before the [try]: the handler
    throws and sends no response.  With one file it never throws and always
    answers: 200 with the transactions extracted from the text that
    pdf-parse gave, nothing logged, when the file was moved, read and
    parsed; if not, 500 with the fixed text of line 99, the error logged
    and not sent. *)
Theorem upload_responses (w : World) :
  handler None w
  = (w, [], Settled (Return (mkResponse 400 (Send (js "No PDF file uploaded.")))))
  /\ (forall files : list File,
        handler (Some (SeveralFiles files)) w
        = (w, [], Settled (Throw path_join_TypeError)))
  /\ (forall pdfFile : File,
        handler (Some (OneFile pdfFile)) w
        = match mv pdfFile (path_join (file_name pdfFile)) w with
          | (w1, Throw error) => (w1, [error], Settled (Return processing_failed))
          | (w1, Return _) =>
              match readFileSync w1 (path_join (file_name pdfFile)) with
              | Throw error => (w1, [error], Settled (Return processing_failed))
              | Return dataBuffer =>
                  match pdf dataBuffer with
                  | Throw error =>
                      (w1, [error; error], Settled (Return processing_failed))
                  | Return text =>
                      (w1, [],
                       Settled (Return (mkResponse 200
                                          (JsonTransactions (extractText text)))))
                  end
              end
          end).
Proof.
  split; [reflexivity|]. split; [reflexivity|].
  intros pdfFile.
  unfold upload, io_try, io_bind, io_call, io_console_error, io_ret.
  destruct (mv pdfFile (path_join (file_name pdfFile)) w) as [w1 [[]|e]];
    [|reflexivity].
  unfold extractBankStatementData, bind, lift, try_catch, ret, throw, console_error.
  destruct (readFileSync w1 (path_join (file_name pdfFile))) as [buf|e];
    [|reflexivity].
  destruct (pdf buf) as [text|e]; reflexivity.
Qed.

(** X14.  A failure of pdf-parse is logged twice, by the handler of line 77 and
    by that of line 97; a failure of [mv] or of [readFileSync] is logged
    once.  The response is the same 500 in the three cases. *)
Theorem upload_failures_are_logged
    (pdfFile : File) (w w1 : World) (buf : Buffer) (error : Error) :
  let uploadPath := path_join (file_name pdfFile) in
  (mv pdfFile uploadPath w = (w1, Throw error) ->
   handler (Some (OneFile pdfFile)) w
   = (w1, [error], Settled (Return processing_failed)))
  /\ (mv pdfFile uploadPath w = (w1, Return tt) ->
      readFileSync w1 uploadPath = Throw error ->
      handler (Some (OneFile pdfFile)) w
      = (w1, [error], Settled (Return processing_failed)))
  /\ (mv pdfFile uploadPath w = (w1, Return tt) ->
      readFileSync w1 uploadPath = Return buf ->
      pdf buf = Throw error ->
      handler (Some (OneFile pdfFile)) w
      = (w1, [error; error], Settled (Return processing_failed))).
Proof.
  intros uploadPath. subst uploadPath.
  unfold upload, io_try, io_bind, io_call, io_console_error, io_ret.
  unfold extractBankStatementData, bind, lift, try_catch, ret, throw, console_error.
  split; [|split].
  - intros ->. reflexivity.
  - intros -> ->. reflexivity.
  - intros -> -> ->. reflexivity.
Qed.

End UploadProperties.

Lemma upload_failures_witness :
  upload (Num := unit) (Obj := unit) (fun f : jstring => f) (fun name : jstring => name)
    0%nat (fun _ _ (w : nat) => (S w, Throw 1%nat))
    (fun _ _ => Return (A := jstring) []) (fun _ => Return (A := jstring) [])
    (Some (OneFile (js "a.pdf"))) 0%nat
  = (1%nat, [1%nat],
     Settled (Return (mkResponse 500 (Send (js "Error processing PDF.")))))
  /\ upload (Num := unit) (Obj := unit) (fun f : jstring => f) (fun name : jstring => name)
       0%nat (fun _ _ (w : nat) => (S w, Return tt))
       (fun _ _ => Throw (A := jstring) 2%nat) (fun _ => Return (A := jstring) [])
       (Some (OneFile (js "a.pdf"))) 0%nat
     = (1%nat, [2%nat],
        Settled (Return (mkResponse 500 (Send (js "Error processing PDF.")))))
  /\ upload (Num := unit) (Obj := unit) (fun f : jstring => f) (fun name : jstring => name)
       0%nat (fun _ _ (w : nat) => (S w, Return tt))
       (fun _ _ => Return (js "%PDF")) (fun _ => Throw (A := jstring) 3%nat)
       (Some (OneFile (js "a.pdf"))) 0%nat
     = (1%nat, [3%nat; 3%nat],
        Settled (Return (mkResponse 500 (Send (js "Error processing PDF."))))).
Proof.
  split; [|split].
  - apply (proj1 (upload_failures_are_logged (Num := unit) (Obj := unit)
                    (fun f : jstring => f) (fun name : jstring => name) 0%nat
                    (fun _ _ (w : nat) => (S w, Throw 1%nat))
                    (fun _ _ => Return (A := jstring) []) (fun _ => Return (A := jstring) [])
                    (js "a.pdf") 0%nat 1%nat [] 1%nat)).
    reflexivity.
  - apply (proj1 (proj2 (upload_failures_are_logged (Num := unit) (Obj := unit)
                    (fun f : jstring => f) (fun name : jstring => name) 0%nat
                    (fun _ _ (w : nat) => (S w, Return tt))
                    (fun _ _ => Throw (A := jstring) 2%nat) (fun _ => Return (A := jstring) [])
                    (js "a.pdf") 0%nat 1%nat [] 2%nat)));
      reflexivity.
  - apply (proj2 (proj2 (upload_failures_are_logged (Num := unit) (Obj := unit)
                    (fun f : jstring => f) (fun name : jstring => name) 0%nat
                    (fun _ _ (w : nat) => (S w, Return tt))
                    (fun _ _ => Return (js "%PDF")) (fun _ => Throw (A := jstring) 3%nat)
                    (js "a.pdf") 0%nat 1%nat (js "%PDF") 3%nat)));
      reflexivity.
Defined.

Section ExpensesProperties.

Context {Error Num Obj World : Type}.
Variables num_isNaN num_le0 num_isZero : Num -> bool.
Variable message_of : Error -> Value Num Obj.
Variable existsSync : World -> bool.
Variable writeFileSync : jstring -> World -> World * Outcome Error unit.
Variable parse_file : World -> StreamEnd Error (list (gmap string (Value Num Obj))).
Variable format_to_file :
  list string -> list (gmap string (Value Num Obj)) -> World
  -> World * StreamEnd Error unit.
Variable parseFloat : Value Num Obj -> Value Num Obj.
Variable uuidv4 : World -> World * jstring.

Local Abbreviation READ :=
  (readExpensesFromCSV num_isNaN num_isZero existsSync writeFileSync parse_file
     parseFloat).
Local Abbreviation WRITE := (writeExpensesToCSV format_to_file).
Local Abbreviation GET :=
  (getExpenses num_isNaN num_isZero message_of existsSync writeFileSync
     parse_file parseFloat).
Local Abbreviation POST :=
  (postExpense num_isNaN num_le0 num_isZero message_of existsSync writeFileSync
     parse_file format_to_file parseFloat uuidv4).
Local Abbreviation DELETE :=
  (deleteExpense num_isNaN num_isZero message_of existsSync writeFileSync
     parse_file format_to_file parseFloat).
Local Abbreviation valid := (valid_body num_isNaN num_le0 num_isZero).
Local Abbreviation expense_of id req_body :=
  (newExpense num_isNaN num_isZero parseFloat id
     (field "date" req_body) (field "type" req_body)
     (field "amount" req_body) (field "comment" req_body)).
Local Abbreviation failed text error :=
  (mkResponse 500 (JsonMessage (js text) (Some (message_of error)))).
Local Abbreviation said code text :=
  (mkResponse (Num := Num) (Obj := Obj) code (JsonMessage (js text) None)).

Lemma strict_eq_string_true (v : Value Num Obj) (s : jstring) :
  strict_eq_string v s = true <-> v = VString s.
Proof.
  destruct v; simpl; try (split; [discriminate | intros H; discriminate H]).
  rewrite bool_decide_eq_true. split; congruence.
Qed.

Lemma other_id_true (id : jstring) (e : gmap string (Value Num Obj)) :
  other_id id e = true <-> field "id" e <> VString id.
Proof.
  unfold other_id. rewrite negb_true_iff, <- not_true_iff_false.
  rewrite strict_eq_string_true. reflexivity.
Qed.

Lemma other_id_false (id : jstring) (e : gmap string (Value Num Obj)) :
  other_id id e = false <-> field "id" e = VString id.
Proof.
  unfold other_id. rewrite negb_false_iff. apply strict_eq_string_true.
Qed.

Lemma filter_keeps_all {A : Type} (f : A -> bool) (l : list A) :
  Forall (fun x => f x = true) l -> List.filter f l = l.
Proof.
  induction 1 as [|x l Hx _ IH]; [reflexivity|].
  simpl. rewrite Hx, IH. reflexivity.
Qed.

Lemma filter_length_le {A : Type} (f : A -> bool) (l : list A) :
  (length (List.filter f l) <= length l)%nat.
Proof.
  induction l as [|x l IH]; [reflexivity|].
  simpl. destruct (f x); simpl; lia.
Qed.

Lemma filter_drops_one {A : Type} (f : A -> bool) (l : list A) :
  Exists (fun x => f x = false) l ->
  (length (List.filter f l) < length l)%nat.
Proof.
  induction 1 as [x l Hx | x l _ IH]; simpl.
  - rewrite Hx. pose proof (filter_length_le f l). lia.
  - destruct (f x); simpl; lia.
Qed.

Lemma filter_sublist {A : Type} (f : A -> bool) (l : list A) :
  List.filter f l `sublist_of` l.
Proof.
  induction l as [|x l IH]; [constructor|].
  simpl. destruct (f x); [apply sublist_skip | apply sublist_cons]; exact IH.
Qed.

Lemma filter_twice {A : Type} (f : A -> bool) (l : list A) :
  List.filter f (List.filter f l) = List.filter f l.
Proof.
  apply filter_keeps_all, Forall_forall. intros x Hx.
  apply list_elem_of_In, List.filter_In in Hx. tauto.
Qed.

Lemma known_id_shortens (id : jstring) (l : list (gmap string (Value Num Obj))) :
  Exists (fun e => field "id" e = VString id) l ->
  (length (List.filter (other_id id) l) < length l)%nat.
Proof.
  intros Hex. apply filter_drops_one. eapply Exists_impl; [exact Hex|].
  intros e He. apply other_id_false, He.
Qed.

(** The two functions of the file log nothing. *)
Lemma read_logs_nothing (w : World) : snd (fst (READ w)) = [].
Proof.
  unfold readExpensesFromCSV. destruct (existsSync w); simpl.
  - destruct (parse_file w); reflexivity.
  - destruct (writeFileSync _ w) as [w' []]; reflexivity.
Qed.

Lemma write_logs_nothing (l : list (gmap string (Value Num Obj))) (w : World) :
  snd (fst (WRITE l w)) = [].
Proof.
  unfold writeExpensesToCSV.
  destruct (format_to_file _ l w) as [w' []]; reflexivity.
Qed.

Lemma delete_read (id : jstring) (w w1 : World)
    (l : list (gmap string (Value Num Obj))) :
  READ w = (w1, [], Settled (Return l)) ->
  DELETE id w =
    if bool_decide (length (List.filter (other_id id) l) = length l)
    then (w1, [], Settled (Return (said 404 "Expense not found")))
    else match WRITE (List.filter (other_id id) l) w1 with
         | (w2, log, Settled (Return _)) =>
             (w2, log, Settled (Return (said 200 "Expense deleted successfully")))
         | (w2, log, Settled (Throw error)) =>
             (w2, log ++ [error],
              Settled (Return (failed "Failed to delete expense" error)))
         | (w2, log, Uncaught error) => (w2, log, Uncaught error)
         end.
Proof.
  intros Hread.
  unfold deleteExpense, io_try, io_bind, io_console_error, io_ret.
  rewrite Hread. case_bool_decide; [reflexivity|].
  destruct (WRITE _ w1) as [[w2 log] [[u|e]|e]]; simpl;
    rewrite ?app_nil_r; reflexivity.
Qed.

(** X15.  DELETE with an id that no expense of the store has answers 404 and
    writes nothing: the world is left as reading left it. *)
Theorem delete_unknown_id_is_not_found (id : jstring) (w w1 : World)
    (l : list (gmap string (Value Num Obj))) :
  READ w = (w1, [], Settled (Return l)) ->
  Forall (fun e => field "id" e <> VString id) l ->
  DELETE id w = (w1, [], Settled (Return (said 404 "Expense not found"))).
Proof.
  intros Hread Hall. rewrite (delete_read id w w1 l Hread).
  rewrite filter_keeps_all, bool_decide_true; [reflexivity..|].
  eapply Forall_impl; [exact Hall|]. intros e He. apply other_id_true, He.
Qed.

(** X16.  DELETE with an id that some expense of the store has writes the store
    anew without any expense of that id, be there one or several, the
    others kept in their order, and answers 200. *)
Theorem delete_known_id_removes_every_match (id : jstring) (w w1 w2 : World)
    (l : list (gmap string (Value Num Obj))) :
  READ w = (w1, [], Settled (Return l)) ->
  Exists (fun e => field "id" e = VString id) l ->
  WRITE (List.filter (other_id id) l) w1 = (w2, [], Settled (Return tt)) ->
  DELETE id w = (w2, [], Settled (Return (said 200 "Expense deleted successfully")))
  /\ (forall e, In e (List.filter (other_id id) l)
                <-> In e l /\ field "id" e <> VString id)
  /\ List.filter (other_id id) l `sublist_of` l
  /\ (length (List.filter (other_id id) l) < length l)%nat.
Proof.
  intros Hread Hex Hwrite.
  pose proof (known_id_shortens id l Hex) as Hlt.
  split; [|split; [|split]].
  - rewrite (delete_read id w w1 l Hread), Hwrite.
    rewrite bool_decide_false by lia. reflexivity.
  - intros e. rewrite List.filter_In, other_id_true. reflexivity.
  - apply filter_sublist.
  - exact Hlt.
Qed.

(** X17.  DELETE twice: when the store gives back what the first DELETE wrote,
    the same DELETE again answers 404 and writes nothing. *)
Theorem delete_again_is_not_found (id : jstring) (w w1 w2 w3 : World)
    (l : list (gmap string (Value Num Obj))) :
  READ w = (w1, [], Settled (Return l)) ->
  Exists (fun e => field "id" e = VString id) l ->
  WRITE (List.filter (other_id id) l) w1 = (w2, [], Settled (Return tt)) ->
  READ w2 = (w3, [], Settled (Return (List.filter (other_id id) l))) ->
  DELETE id w = (w2, [], Settled (Return (said 200 "Expense deleted successfully")))
  /\ DELETE id w2 = (w3, [], Settled (Return (said 404 "Expense not found"))).
Proof.
  intros Hread Hex Hwrite Hread2.
  pose proof (known_id_shortens id l Hex) as Hlt. split.
  - rewrite (delete_read id w w1 l Hread), Hwrite.
    rewrite bool_decide_false by lia. reflexivity.
  - rewrite (delete_read id w2 w3 _ Hread2), filter_twice.
    rewrite bool_decide_true; reflexivity.
Qed.

Lemma valid_passes (req_body : gmap string (Value Num Obj)) :
  valid req_body ->
  negb (truthy num_isNaN num_isZero (field "date" req_body))
  || negb (truthy num_isNaN num_isZero (field "type" req_body))
  || is_undefined Num Obj (field "amount" req_body)
  || is_null Num Obj (field "amount" req_body) = false
  /\ negb (is_number Num Obj (field "amount" req_body))
     || value_isNaN Num Obj num_isNaN (field "amount" req_body)
     || value_le0 Num Obj num_le0 (field "amount" req_body) = false.
Proof.
  intros (Hd & Ht & n & Ha & Hnan & Hle).
  rewrite Hd, Ht, Ha. simpl. rewrite Hnan, Hle. split; reflexivity.
Qed.

Lemma passes_valid (req_body : gmap string (Value Num Obj)) :
  negb (truthy num_isNaN num_isZero (field "date" req_body))
  || negb (truthy num_isNaN num_isZero (field "type" req_body))
  || is_undefined Num Obj (field "amount" req_body)
  || is_null Num Obj (field "amount" req_body) = false ->
  negb (is_number Num Obj (field "amount" req_body))
  || value_isNaN Num Obj num_isNaN (field "amount" req_body)
  || value_le0 Num Obj num_le0 (field "amount" req_body) = false ->
  valid req_body.
Proof.
  intros H1 H2.
  apply orb_false_elim in H1 as [H1 _]. apply orb_false_elim in H1 as [H1 _].
  apply orb_false_elim in H1 as [Hd Ht].
  apply orb_false_elim in H2 as [H2 Hle]. apply orb_false_elim in H2 as [Hn Hnan].
  apply negb_false_iff in Hd, Ht, Hn.
  split; [exact Hd|]. split; [exact Ht|].
  destruct (field "amount" req_body); try discriminate Hn.
  eexists. split; [reflexivity|]. split; assumption.
Qed.

(** A valid body, by the outcome of the reading and of the writing. *)
Lemma post_valid (req_body : gmap string (Value Num Obj)) (w : World) :
  valid req_body ->
  POST req_body w =
    match uuidv4 w with
    | (w1, id) =>
        match READ w1 with
        | (w2, _, Settled (Return l)) =>
            match WRITE (l ++ [expense_of id req_body]) w2 with
            | (w3, _, Settled (Return _)) =>
                (w3, [], Settled (Return (mkResponse 201
                                            (JsonExpense (expense_of id req_body)))))
            | (w3, _, Settled (Throw error)) =>
                (w3, [error], Settled (Return (failed "Failed to add expense" error)))
            | (w3, _, Uncaught error) => (w3, [], Uncaught error)
            end
        | (w2, _, Settled (Throw error)) =>
            (w2, [error], Settled (Return (failed "Failed to add expense" error)))
        | (w2, _, Uncaught error) => (w2, [], Uncaught error)
        end
    end.
Proof.
  intros Hv. apply valid_passes in Hv as [H1 H2].
  unfold postExpense, io_try, io_bind, io_call, io_console_error, io_ret.
  rewrite H1, H2.
  destruct (uuidv4 w) as [w1 id].
  pose proof (read_logs_nothing w1) as Hlog.
  destruct (READ w1) as [[w2 log] [[l|e]|e]]; simpl in Hlog; subst log;
    [|reflexivity..].
  pose proof (write_logs_nothing (l ++ [expense_of id req_body]) w2) as Hlog.
  destruct (WRITE _ w2) as [[w3 log] [[u|e]|e]]; simpl in Hlog; subst log;
    reflexivity.
Qed.

(** X18.  POST never throws.  A body whose date or type is falsy, or whose
    amount is not a number, is NaN, or is not greater than 0, is answered
    400 with the world untouched: no identifier is drawn, the file is
    neither read nor written.  Any other body is answered 201 when the file
    was read and written, 500 with the error logged when reading or writing
    was rejected, and is not answered when reading or writing ended with an
    error that nothing listens for. *)
Theorem post_checks_the_body_first
    (req_body : gmap string (Value Num Obj)) (w : World) :
  (~ valid req_body ->
   exists text, POST req_body w
                = (w, [], Settled (Return (mkResponse 400 (JsonMessage text None)))))
  /\ (valid req_body ->
      exists w' log fate,
        POST req_body w = (w', log, fate)
        /\ match fate with
           | Settled (Return r) =>
               (status r = 201%nat /\ log = []
                /\ exists w2 l,
                     READ (fst (uuidv4 w)) = (w2, [], Settled (Return l))
                     /\ WRITE (l ++ [expense_of (snd (uuidv4 w)) req_body]) w2
                        = (w', [], Settled (Return tt)))
               \/ (status r = 500%nat
                   /\ exists error,
                        log = [error]
                        /\ (READ (fst (uuidv4 w)) = (w', [], Settled (Throw error))
                            \/ exists w2 l,
                                 READ (fst (uuidv4 w)) = (w2, [], Settled (Return l))
                                 /\ WRITE (l ++ [expense_of (snd (uuidv4 w)) req_body]) w2
                                    = (w', [], Settled (Throw error))))
           | Settled (Throw _) => False
           | Uncaught error =>
               READ (fst (uuidv4 w)) = (w', [], Uncaught error)
               \/ exists w2 l,
                    READ (fst (uuidv4 w)) = (w2, [], Settled (Return l))
                    /\ WRITE (l ++ [expense_of (snd (uuidv4 w)) req_body]) w2
                       = (w', [], Uncaught error)
           end).
Proof.
  split.
  - intros Hinvalid.
    unfold postExpense, io_try, io_bind, io_call, io_console_error, io_ret.
    destruct (negb (truthy num_isNaN num_isZero (field "date" req_body))
              || negb (truthy num_isNaN num_isZero (field "type" req_body))
              || is_undefined Num Obj (field "amount" req_body)
              || is_null Num Obj (field "amount" req_body)) eqn:H1;
      [eexists; reflexivity|].
    destruct (negb (is_number Num Obj (field "amount" req_body))
              || value_isNaN Num Obj num_isNaN (field "amount" req_body)
              || value_le0 Num Obj num_le0 (field "amount" req_body)) eqn:H2;
      [eexists; reflexivity|].
    destruct Hinvalid. apply passes_valid; assumption.
  - intros Hv. rewrite (post_valid req_body w Hv).
    destruct (uuidv4 w) as [w1 id]. simpl.
    destruct (READ w1) as [[w2 log] [[l|e]|e]] eqn:Hr;
      pose proof (read_logs_nothing w1) as Hlog; rewrite Hr in Hlog;
      simpl in Hlog; subst log.
    + destruct (WRITE (l ++ [expense_of id req_body]) w2)
        as [[w3 log] [[[]|e]|e]] eqn:Hw;
        pose proof (write_logs_nothing (l ++ [expense_of id req_body]) w2) as Hlog;
        rewrite Hw in Hlog; simpl in Hlog; subst log.
      * do 3 eexists. split; [reflexivity|]. left.
        split; [reflexivity|]. split; [reflexivity|].
        exists w2, l. split; [reflexivity | exact Hw].
      * do 3 eexists. split; [reflexivity|]. right.
        split; [reflexivity|]. exists e. split; [reflexivity|].
        right. exists w2, l. split; [reflexivity | exact Hw].
      * do 3 eexists. split; [reflexivity|].
        right. exists w2, l. split; [reflexivity | exact Hw].
    + do 3 eexists. split; [reflexivity|]. right.
      split; [reflexivity|]. exists e. split; [reflexivity|]. left. reflexivity.
    + do 3 eexists. split; [reflexivity|]. left. reflexivity.
Qed.

(** X19.  A valid POST, when the store can be read and written, writes the list
    it read with one expense added at its end and answers 201 with that
    expense: its id is the identifier drawn, its date and type are those of
    the body, and its comment is the comment of the body when that is
    truthy, the empty string when it is not. *)
Theorem post_appends_one_expense
    (req_body : gmap string (Value Num Obj)) (w w1 w2 w3 : World)
    (id : jstring) (l : list (gmap string (Value Num Obj))) :
  valid req_body ->
  uuidv4 w = (w1, id) ->
  READ w1 = (w2, [], Settled (Return l)) ->
  WRITE (l ++ [expense_of id req_body]) w2 = (w3, [], Settled (Return tt)) ->
  POST req_body w
  = (w3, [], Settled (Return (mkResponse 201 (JsonExpense (expense_of id req_body)))))
  /\ field "id" (expense_of id req_body) = VString id
  /\ field "date" (expense_of id req_body) = field "date" req_body
  /\ field "type" (expense_of id req_body) = field "type" req_body
  /\ field "amount" (expense_of id req_body) = parseFloat (field "amount" req_body)
  /\ field "comment" (expense_of id req_body)
     = (if truthy num_isNaN num_isZero (field "comment" req_body)
        then field "comment" req_body else VString []).
Proof.
  intros Hv Hid Hread Hwrite.
  split; [rewrite (post_valid req_body w Hv), Hid, Hread, Hwrite; reflexivity|].
  unfold newExpense, field. repeat split.
Qed.

(** X20.  POST then DELETE of the new id: when the identifier drawn is the id of
    no expense of the store, and the store gives back what was written,
    deleting the expense just added writes back the list as it was before
    the POST. *)
Theorem post_then_delete_restores_the_list
    (req_body : gmap string (Value Num Obj)) (w w1 w2 w3 w4 w5 : World)
    (id : jstring) (l : list (gmap string (Value Num Obj))) :
  valid req_body ->
  uuidv4 w = (w1, id) ->
  READ w1 = (w2, [], Settled (Return l)) ->
  Forall (fun e => field "id" e <> VString id) l ->
  WRITE (l ++ [expense_of id req_body]) w2 = (w3, [], Settled (Return tt)) ->
  READ w3 = (w4, [], Settled (Return (l ++ [expense_of id req_body]))) ->
  WRITE l w4 = (w5, [], Settled (Return tt)) ->
  POST req_body w
  = (w3, [], Settled (Return (mkResponse 201 (JsonExpense (expense_of id req_body)))))
  /\ List.filter (other_id id) (l ++ [expense_of id req_body]) = l
  /\ DELETE id w3
     = (w5, [], Settled (Return (said 200 "Expense deleted successfully"))).
Proof.
  intros Hv Hid Hread Hfresh Hwrite Hread2 Hwrite2.
  assert (Hfilter : List.filter (other_id id) (l ++ [expense_of id req_body]) = l).
  { rewrite List.filter_app, filter_keeps_all.
    - simpl. replace (other_id id (expense_of id req_body)) with false.
      + apply app_nil_r.
      + symmetry. apply other_id_false. reflexivity.
    - eapply Forall_impl; [exact Hfresh|]. intros e He. apply other_id_true, He. }
  split; [rewrite (post_valid req_body w Hv), Hid, Hread, Hwrite; reflexivity|].
  split; [exact Hfilter|].
  rewrite (delete_read id w3 w4 _ Hread2), Hfilter, Hwrite2.
  rewrite bool_decide_false; [reflexivity|].
  rewrite length_app. simpl. lia.
Qed.

(** X21.  When the file cannot be read.  If the parser of the file reports an
    error, reading is rejected, and GET, POST and DELETE answer 500 with
    their own message and the message of the error, log the error once and
    write nothing.  If the read stream itself emits an error, nothing
    listens for it (lines 120-122 listen on the parser): reading never
    settles, and GET, POST and DELETE send no response. *)
Theorem store_read_failures
    (req_body : gmap string (Value Num Obj)) (id drawn : jstring)
    (w w0 w1 : World) (error : Error) :
  ((existsSync w = true -> parse_file w = Errored error ->
    READ w = (w, [], Settled (Throw error)))
   /\ (existsSync w = true -> parse_file w = Unheard error ->
       READ w = (w, [], Uncaught error)))
  /\ ((READ w = (w1, [], Settled (Throw error)) ->
       GET w = (w1, [error],
                Settled (Return (failed "Failed to retrieve expenses" error)))
       /\ DELETE id w = (w1, [error],
                         Settled (Return (failed "Failed to delete expense" error))))
      /\ (valid req_body ->
          uuidv4 w = (w0, drawn) ->
          READ w0 = (w1, [], Settled (Throw error)) ->
          POST req_body w = (w1, [error],
                             Settled (Return (failed "Failed to add expense" error)))))
  /\ ((READ w = (w1, [], Uncaught error) ->
       GET w = (w1, [], Uncaught error)
       /\ DELETE id w = (w1, [], Uncaught error))
      /\ (valid req_body ->
          uuidv4 w = (w0, drawn) ->
          READ w0 = (w1, [], Uncaught error) ->
          POST req_body w = (w1, [], Uncaught error))).
Proof.
  split; [|split].
  - unfold readExpensesFromCSV. split; intros -> ->; reflexivity.
  - split.
    + intros Hread.
      unfold getExpenses, deleteExpense, io_try, io_bind, io_console_error, io_ret.
      rewrite Hread. split; reflexivity.
    + intros Hv Hid Hread.
      rewrite (post_valid req_body w Hv), Hid, Hread. reflexivity.
  - split.
    + intros Hread.
      unfold getExpenses, deleteExpense, io_try, io_bind, io_console_error, io_ret.
      rewrite Hread. split; reflexivity.
    + intros Hv Hid Hread.
      rewrite (post_valid req_body w Hv), Hid, Hread. reflexivity.
Qed.

(** X22.  When the store is read but cannot be written, POST and DELETE answer
    500 with their own message and the message of the error, and log the
    error once; they do not answer 201 or 200. *)
Theorem unwritable_store_is_answered_500
    (req_body : gmap string (Value Num Obj)) (id drawn : jstring)
    (w w0 w1 w2 : World) (l : list (gmap string (Value Num Obj)))
    (error : Error) :
  (valid req_body ->
   uuidv4 w = (w0, drawn) ->
   READ w0 = (w1, [], Settled (Return l)) ->
   WRITE (l ++ [expense_of drawn req_body]) w1 = (w2, [], Settled (Throw error)) ->
   POST req_body w
   = (w2, [error], Settled (Return (failed "Failed to add expense" error))))
  /\ (READ w = (w1, [], Settled (Return l)) ->
      Exists (fun e => field "id" e = VString id) l ->
      WRITE (List.filter (other_id id) l) w1 = (w2, [], Settled (Throw error)) ->
      DELETE id w
      = (w2, [error], Settled (Return (failed "Failed to delete expense" error)))).
Proof.
  split.
  - intros Hv Hid Hread Hwrite.
    rewrite (post_valid req_body w Hv), Hid, Hread, Hwrite. reflexivity.
  - intros Hread Hex Hwrite.
    pose proof (known_id_shortens id l Hex) as Hlt.
    rewrite (delete_read id w w1 l Hread), Hwrite.
    rewrite bool_decide_false by lia. reflexivity.
Qed.

End ExpensesProperties.

(** ** The handlers on the store in memory *)

Lemma delete_unknown_id_witness :
  Memory.DELETE Memory.parse_file Memory.format_to_file (js "zz")
    ([Memory.row "a" 5; Memory.row "b" 7], 0)
  = (([Memory.row "a" 5; Memory.row "b" 7], 0), [],
     Settled (Return (mkResponse 404 (JsonMessage (js "Expense not found") None)))).
Proof.
  apply (delete_unknown_id_is_not_found Memory.num_isNaN Memory.num_isZero
           Memory.message_of Memory.existsSync Memory.writeFileSync
           Memory.parse_file Memory.format_to_file Memory.parseFloat
           (js "zz") ([Memory.row "a" 5; Memory.row "b" 7], 0)
           ([Memory.row "a" 5; Memory.row "b" 7], 0)
           [Memory.row "a" 5; Memory.row "b" 7]).
  - reflexivity.
  - repeat (constructor; [discriminate|]). constructor.
Defined.

Lemma delete_known_id_witness :
  Memory.DELETE Memory.parse_file Memory.format_to_file (js "a")
    ([Memory.row "a" 5; Memory.row "b" 7; Memory.row "a" 9], 0)
  = (([Memory.row "b" 7], 0), [],
     Settled (Return (mkResponse 200
                        (JsonMessage (js "Expense deleted successfully") None)))).
Proof.
  apply (delete_known_id_removes_every_match Memory.num_isNaN Memory.num_isZero
           Memory.message_of Memory.existsSync Memory.writeFileSync
           Memory.parse_file Memory.format_to_file Memory.parseFloat
           (js "a") ([Memory.row "a" 5; Memory.row "b" 7; Memory.row "a" 9], 0)
           ([Memory.row "a" 5; Memory.row "b" 7; Memory.row "a" 9], 0)
           ([Memory.row "b" 7], 0)
           [Memory.row "a" 5; Memory.row "b" 7; Memory.row "a" 9]).
  - reflexivity.
  - left. reflexivity.
  - reflexivity.
Defined.

Lemma delete_again_witness :
  Memory.DELETE Memory.parse_file Memory.format_to_file (js "a")
    ([Memory.row "a" 5; Memory.row "b" 7], 0)
  = (([Memory.row "b" 7], 0), [],
     Settled (Return (mkResponse 200
                        (JsonMessage (js "Expense deleted successfully") None))))
  /\ Memory.DELETE Memory.parse_file Memory.format_to_file (js "a")
       ([Memory.row "b" 7], 0)
     = (([Memory.row "b" 7], 0), [],
        Settled (Return (mkResponse 404 (JsonMessage (js "Expense not found") None)))).
Proof.
  apply (delete_again_is_not_found Memory.num_isNaN Memory.num_isZero
           Memory.message_of Memory.existsSync Memory.writeFileSync
           Memory.parse_file Memory.format_to_file Memory.parseFloat
           (js "a") ([Memory.row "a" 5; Memory.row "b" 7], 0)
           ([Memory.row "a" 5; Memory.row "b" 7], 0)
           ([Memory.row "b" 7], 0) ([Memory.row "b" 7], 0)
           [Memory.row "a" 5; Memory.row "b" 7]).
  - reflexivity.
  - left. reflexivity.
  - reflexivity.
  - reflexivity.
Defined.

Lemma post_checks_witness :
  (exists text,
     Memory.POST Memory.parse_file Memory.format_to_file
       (<["amount" := VNumber 0%Z]> Memory.lunch) ([Memory.row "a" 5], 0)
     = (([Memory.row "a" 5], 0), [],
        Settled (Return (mkResponse 400 (JsonMessage text None)))))
  /\ (exists w' log fate,
        Memory.POST Memory.parse_file Memory.format_to_file
          Memory.lunch ([Memory.row "a" 5], 0) = (w', log, fate)
        /\ forall error, fate <> Settled (Throw error)).
Proof.
  split.
  - apply (proj1 (post_checks_the_body_first
                    Memory.num_isNaN Memory.num_le0 Memory.num_isZero
                    Memory.message_of Memory.existsSync Memory.writeFileSync
                    Memory.parse_file Memory.format_to_file Memory.parseFloat
                    Memory.uuidv4
                    (<["amount" := VNumber 0%Z]> Memory.lunch)
                    ([Memory.row "a" 5], 0))).
    intros (_ & _ & n & Hn & _ & Hle).
    vm_compute in Hn. injection Hn as <-. discriminate Hle.
  - destruct (proj2 (post_checks_the_body_first
                       Memory.num_isNaN Memory.num_le0 Memory.num_isZero
                       Memory.message_of Memory.existsSync Memory.writeFileSync
                       Memory.parse_file Memory.format_to_file Memory.parseFloat
                       Memory.uuidv4 Memory.lunch ([Memory.row "a" 5], 0)))
      as (w' & log & fate & Hpost & Hfate).
    + split; [reflexivity|]. split; [reflexivity|].
      exists 12%Z. repeat split.
    + exists w', log, fate. split; [exact Hpost|].
      intros error ->. exact Hfate.
Defined.

Lemma post_appends_witness :
  Memory.POST Memory.parse_file Memory.format_to_file Memory.lunch
    ([Memory.row "a" 5], 0)
  = (([Memory.row "a" 5;
       newExpense Memory.num_isNaN Memory.num_isZero Memory.parseFloat (js "id-0")
         (VString (js "2024-01-06")) (VString (js "food")) (VNumber 12%Z) VUndefined],
      1), [],
     Settled (Return (mkResponse 201
               (JsonExpense
                  (newExpense Memory.num_isNaN Memory.num_isZero Memory.parseFloat
                     (js "id-0") (VString (js "2024-01-06")) (VString (js "food"))
                     (VNumber 12%Z) VUndefined))))).
Proof.
  apply (post_appends_one_expense
           Memory.num_isNaN Memory.num_le0 Memory.num_isZero
           Memory.message_of Memory.existsSync Memory.writeFileSync
           Memory.parse_file Memory.format_to_file Memory.parseFloat Memory.uuidv4
           Memory.lunch ([Memory.row "a" 5], 0) ([Memory.row "a" 5], 1)
           ([Memory.row "a" 5], 1)
           ([Memory.row "a" 5;
             newExpense Memory.num_isNaN Memory.num_isZero Memory.parseFloat (js "id-0")
               (VString (js "2024-01-06")) (VString (js "food")) (VNumber 12%Z) VUndefined],
            1)
           (js "id-0") [Memory.row "a" 5]).
  - split; [reflexivity|]. split; [reflexivity|]. exists 12%Z. repeat split.
  - reflexivity.
  - reflexivity.
  - reflexivity.
Defined.

Lemma post_then_delete_witness :
  Memory.DELETE Memory.parse_file Memory.format_to_file (js "id-0")
    ([Memory.row "a" 5;
      newExpense Memory.num_isNaN Memory.num_isZero Memory.parseFloat (js "id-0")
        (VString (js "2024-01-06")) (VString (js "food")) (VNumber 12%Z) VUndefined],
     1)
  = (([Memory.row "a" 5], 1), [],
     Settled (Return (mkResponse 200
                        (JsonMessage (js "Expense deleted successfully") None)))).
Proof.
  apply (post_then_delete_restores_the_list
           Memory.num_isNaN Memory.num_le0 Memory.num_isZero
           Memory.message_of Memory.existsSync Memory.writeFileSync
           Memory.parse_file Memory.format_to_file Memory.parseFloat Memory.uuidv4
           Memory.lunch ([Memory.row "a" 5], 0) ([Memory.row "a" 5], 1)
           ([Memory.row "a" 5], 1)
           ([Memory.row "a" 5;
             newExpense Memory.num_isNaN Memory.num_isZero Memory.parseFloat (js "id-0")
               (VString (js "2024-01-06")) (VString (js "food")) (VNumber 12%Z) VUndefined],
            1)
           ([Memory.row "a" 5;
             newExpense Memory.num_isNaN Memory.num_isZero Memory.parseFloat (js "id-0")
               (VString (js "2024-01-06")) (VString (js "food")) (VNumber 12%Z) VUndefined],
            1)
           ([Memory.row "a" 5], 1)
           (js "id-0") [Memory.row "a" 5]).
  - split; [reflexivity|]. split; [reflexivity|]. exists 12%Z. repeat split.
  - reflexivity.
  - reflexivity.
  - repeat (constructor; [discriminate|]). constructor.
  - reflexivity.
  - reflexivity.
  - reflexivity.
Defined.

Lemma store_read_failures_witness :
  (Memory.GET Memory.malformed ([Memory.row "a" 5], 0)
   = (([Memory.row "a" 5], 0), [js "Parse Error"],
      Settled (Return (mkResponse 500
                         (JsonMessage (js "Failed to retrieve expenses")
                            (Some (VString (js "Parse Error")))))))
   /\ Memory.POST Memory.malformed Memory.format_to_file Memory.lunch
        ([Memory.row "a" 5], 0)
      = (([Memory.row "a" 5], 1), [js "Parse Error"],
         Settled (Return (mkResponse 500
                            (JsonMessage (js "Failed to add expense")
                               (Some (VString (js "Parse Error"))))))))
  /\ (Memory.GET Memory.unreadable ([Memory.row "a" 5], 0)
      = (([Memory.row "a" 5], 0), [], Uncaught (js "EACCES"))
      /\ Memory.DELETE Memory.unreadable Memory.format_to_file (js "a")
           ([Memory.row "a" 5], 0)
         = (([Memory.row "a" 5], 0), [], Uncaught (js "EACCES"))
      /\ Memory.POST Memory.unreadable Memory.format_to_file Memory.lunch
           ([Memory.row "a" 5], 0)
         = (([Memory.row "a" 5], 1), [], Uncaught (js "EACCES"))).
Proof.
  pose proof (store_read_failures
                Memory.num_isNaN Memory.num_le0 Memory.num_isZero
                Memory.message_of Memory.existsSync Memory.writeFileSync
                Memory.malformed Memory.format_to_file Memory.parseFloat
                Memory.uuidv4 Memory.lunch (js "a") (js "id-0")
                ([Memory.row "a" 5], 0) ([Memory.row "a" 5], 1))
    as Hparse.
  pose proof (store_read_failures
                Memory.num_isNaN Memory.num_le0 Memory.num_isZero
                Memory.message_of Memory.existsSync Memory.writeFileSync
                Memory.unreadable Memory.format_to_file Memory.parseFloat
                Memory.uuidv4 Memory.lunch (js "a") (js "id-0")
                ([Memory.row "a" 5], 0) ([Memory.row "a" 5], 1))
    as Hread.
  assert (Hvalid : valid_body Memory.num_isNaN Memory.num_le0 Memory.num_isZero
                     Memory.lunch).
  { split; [reflexivity|]. split; [reflexivity|]. exists 12%Z. repeat split. }
  split; [split | split; [|split]].
  - apply (proj1 (proj1 (proj1 (proj2 (Hparse ([Memory.row "a" 5], 0)
                                          (js "Parse Error"))))
                    (proj1 (proj1 (Hparse ([Memory.row "a" 5], 0)
                                     (js "Parse Error")))
                       eq_refl eq_refl))).
  - apply (proj2 (proj1 (proj2 (Hparse ([Memory.row "a" 5], 1)
                                  (js "Parse Error"))))
             Hvalid eq_refl eq_refl).
  - apply (proj1 (proj1 (proj2 (proj2 (Hread ([Memory.row "a" 5], 0)
                                         (js "EACCES"))))
                    (proj2 (proj1 (Hread ([Memory.row "a" 5], 0) (js "EACCES")))
                       eq_refl eq_refl))).
  - apply (proj2 (proj1 (proj2 (proj2 (Hread ([Memory.row "a" 5], 0)
                                         (js "EACCES"))))
                    (proj2 (proj1 (Hread ([Memory.row "a" 5], 0) (js "EACCES")))
                       eq_refl eq_refl))).
  - apply (proj2 (proj2 (proj2 (Hread ([Memory.row "a" 5], 1) (js "EACCES"))))
             Hvalid eq_refl eq_refl).
Defined.

Lemma unwritable_store_witness :
  Memory.POST Memory.parse_file Memory.unwritable Memory.lunch
    ([Memory.row "a" 5], 0)
  = (([Memory.row "a" 5], 1), [js "ENOSPC"],
     Settled (Return (mkResponse 500
                        (JsonMessage (js "Failed to add expense")
                           (Some (VString (js "ENOSPC")))))))
  /\ Memory.DELETE Memory.parse_file Memory.unwritable (js "a")
       ([Memory.row "a" 5], 1)
     = (([Memory.row "a" 5], 1), [js "ENOSPC"],
        Settled (Return (mkResponse 500
                           (JsonMessage (js "Failed to delete expense")
                              (Some (VString (js "ENOSPC"))))))).
Proof.
  split.
  - apply (proj1 (unwritable_store_is_answered_500
                    Memory.num_isNaN Memory.num_le0 Memory.num_isZero
                    Memory.message_of Memory.existsSync Memory.writeFileSync
                    Memory.parse_file Memory.unwritable Memory.parseFloat
                    Memory.uuidv4
                    Memory.lunch (js "a") (js "id-0")
                    ([Memory.row "a" 5], 0) ([Memory.row "a" 5], 1)
                    ([Memory.row "a" 5], 1) ([Memory.row "a" 5], 1)
                    [Memory.row "a" 5] (js "ENOSPC"))).
    + split; [reflexivity|]. split; [reflexivity|]. exists 12%Z. repeat split.
    + reflexivity.
    + reflexivity.
    + reflexivity.
  - apply (proj2 (unwritable_store_is_answered_500
                    Memory.num_isNaN Memory.num_le0 Memory.num_isZero
                    Memory.message_of Memory.existsSync Memory.writeFileSync
                    Memory.parse_file Memory.unwritable Memory.parseFloat
                    Memory.uuidv4
                    Memory.lunch (js "a") (js "id-0")
                    ([Memory.row "a" 5], 1) ([Memory.row "a" 5], 1)
                    ([Memory.row "a" 5], 1) ([Memory.row "a" 5], 1)
                    [Memory.row "a" 5] (js "ENOSPC"))).
    + reflexivity.
    + left. reflexivity.
    + reflexivity.
Defined.
